(** * Agentic-Claims-Demo: contract matching and decision engine

    A shallow embedding of [src/agents/bundled_match.py],
    [src/agents/recommendation.py] and [src/agents/provider_response.py].

    The agents are dynamically typed: they receive JSON-like Python values
    and read them with [dict.get], [or], [str()], [.strip()] and friends.
    The embedding therefore works over a universe [pyval] of Python values
    and an error monad [res] whose failures are the Python exceptions
    ([AttributeError], [TypeError]) the source can raise.

    Modelling conventions.
    - A Python [str] is a Rocq [string]; its characters are read as code
      points.  [lower], [upper] and the white-space test follow Python on
      the ASCII range (code points below 128); characters from 128 on are
      treated as caseless, non-blank payload (non-ASCII text in the
      source's fixed prompts is kept as its UTF-8 bytes).
    - A Python [dict] is an association list in insertion order, read by
      its first binding of a key; keys are strings, as in JSON.
    - A Python [float] is carried by its [repr] text (the shortest decimal
      that round-trips), which is all the agents ever do with one.
    - A Python [set] that is only tested for the existence of an element
      is a list. *)

From Stdlib Require Import Bool List Arith ZArith Lia Ascii String.
From Stdlib Require Import Permutation DecimalString.
Import ListNotations.

Set Warnings "-register-all".

Open Scope list_scope.
Open Scope string_scope.

(* ================================================================== *)
(** * Python values *)

Module Py.

Inductive pyval : Type :=
| VNone
| VBool (b : bool)
| VInt (n : Z)
| VFloat (repr : string)
| VStr (s : string)
| VList (items : list pyval)
| VDict (entries : list (string * pyval)).

(** The exceptions the agents can raise. *)
Inductive exn : Type :=
| AttributeError
| TypeError
| IndexError.

Inductive res (A : Type) : Type :=
| Ok (a : A)
| Raise (e : exn).

Arguments Ok {A} a.
Arguments Raise {A} e.

Definition bind {A B : Type} (m : res A) (k : A -> res B) : res B :=
  match m with
  | Ok a => k a
  | Raise e => Raise e
  end.

Notation "x <- m ;; k" := (bind m (fun x => k))
  (at level 61, m at next level, right associativity).
Notation "' pat <- m ;; k" := (bind m (fun x => match x with pat => k end))
  (at level 61, pat pattern, m at next level, right associativity).

(** [[f(x) for x in xs]] where [f] may raise: stops at the first raise. *)
Fixpoint mapM {A B : Type} (f : A -> res B) (xs : list A) : res (list B) :=
  match xs with
  | [] => Ok []
  | x :: xs' => y <- f x ;; ys <- mapM f xs' ;; Ok (y :: ys)
  end.

(* ------------------------------------------------------------------ *)
(** ** Characters and strings *)

Definition quote_char : ascii := ascii_of_nat 34.
Definition apostrophe : ascii := ascii_of_nat 39.
Definition backslash : ascii := ascii_of_nat 92.

(** A string is a sequence of 8-bit characters.  The character test and
    the two character maps below are Python's on ASCII characters (codes
    below 128) and leave every other character alone: [str.isspace],
    [str.lower] and [str.upper] also act on characters outside ASCII
    (U+00A0 is white space, U+017F upper-cases to [S]), which is not
    modelled.  So [strip], [split], [lower] and [upper] are Python's on
    ASCII text, [is_ascii]; a statement that would not carry over to
    other text is stated for ASCII text. *)
Definition is_ascii_char (c : ascii) : bool := (nat_of_ascii c <? 128)%nat.

Fixpoint is_ascii (s : string) : bool :=
  match s with
  | EmptyString => true
  | String c s' => is_ascii_char c && is_ascii s'
  end.

(** [str.isspace] on one ASCII character: TAB..CR, FS..US and SPACE. *)
Definition is_space (c : ascii) : bool :=
  let n := nat_of_ascii c in
  (((9 <=? n) && (n <=? 13)) || ((28 <=? n) && (n <=? 32)))%nat.

(** [str.lower] on one ASCII character. *)
Definition lower_char (c : ascii) : ascii :=
  let n := nat_of_ascii c in
  if ((65 <=? n) && (n <=? 90))%nat then ascii_of_nat (n + 32) else c.

(** [str.upper] on one ASCII character. *)
Definition upper_char (c : ascii) : ascii :=
  let n := nat_of_ascii c in
  if ((97 <=? n) && (n <=? 122))%nat then ascii_of_nat (n - 32) else c.

Fixpoint map_chars (f : ascii -> ascii) (s : string) : string :=
  match s with
  | EmptyString => EmptyString
  | String c s' => String (f c) (map_chars f s')
  end.

(** [s.lower()], [s.upper()], for ASCII [s]. *)
Definition lower (s : string) : string := map_chars lower_char s.
Definition upper (s : string) : string := map_chars upper_char s.

(** [s.lstrip()], for ASCII [s]. *)
Fixpoint lstrip (s : string) : string :=
  match s with
  | EmptyString => EmptyString
  | String c s' => if is_space c then lstrip s' else s
  end.

(** [s.rstrip()]: a character stays when something non-blank follows it
    or it is not blank itself. *)
Fixpoint rstrip (s : string) : string :=
  match s with
  | EmptyString => EmptyString
  | String c s' =>
      match rstrip s' with
      | EmptyString => if is_space c then EmptyString else String c EmptyString
      | t => String c t
      end
  end.

(** [s.strip()], for ASCII [s]. *)
Definition strip (s : string) : string := rstrip (lstrip s).

(** [s.replace("_", " ")]. *)
Definition underscores_to_spaces (s : string) : string :=
  map_chars (fun c => if Ascii.eqb c "_" then " "%char else c) s.

(** [s.split()], for ASCII [s]: the maximal runs of non-blank
    characters, in order.
    [cur] is the run being read, reversed. *)
Fixpoint split_from (cur : list ascii) (s : string) : list string :=
  match s with
  | EmptyString =>
      match cur with
      | [] => []
      | _ => [string_of_list_ascii (rev cur)]
      end
  | String c s' =>
      if is_space c then
        match cur with
        | [] => split_from [] s'
        | _ => string_of_list_ascii (rev cur) :: split_from [] s'
        end
      else split_from (c :: cur) s'
  end.

Definition split (s : string) : list string := split_from [] s.

(** [s.startswith(p)]. *)
Fixpoint starts_with (p s : string) : bool :=
  match p, s with
  | EmptyString, _ => true
  | String _ _, EmptyString => false
  | String a p', String b s' => Ascii.eqb a b && starts_with p' s'
  end.

(** [a in c] on strings: [a] occurs in [c] as a contiguous block. *)
Fixpoint contains (a c : string) : bool :=
  starts_with a c ||
  match c with
  | EmptyString => false
  | String _ c' => contains a c'
  end.

(** [sep.join(parts)]. *)
Fixpoint join (sep : string) (parts : list string) : string :=
  match parts with
  | [] => ""
  | [p] => p
  | p :: rest => p ++ sep ++ join sep rest
  end.

Definition str_is_empty (s : string) : bool :=
  match s with
  | EmptyString => true
  | _ => false
  end.

(* ------------------------------------------------------------------ *)
(** ** [repr] and [str] *)

Definition hex_digit (n : nat) : ascii :=
  if (n <? 10)%nat then ascii_of_nat (48 + n) else ascii_of_nat (87 + n).

Fixpoint has_char (c : ascii) (s : string) : bool :=
  match s with
  | EmptyString => false
  | String d s' => Ascii.eqb c d || has_char c s'
  end.

(** The quote [repr] wraps a string in: a double quote only when the
    text has an apostrophe and no double quote. *)
Definition repr_quote (s : string) : ascii :=
  if has_char apostrophe s && negb (has_char quote_char s)
  then quote_char else apostrophe.

Definition repr_char (q c : ascii) : string :=
  let n := nat_of_ascii c in
  if Ascii.eqb c q || Ascii.eqb c backslash then String backslash (String c "")
  else if (n =? 9)%nat then String backslash "t"
  else if (n =? 10)%nat then String backslash "n"
  else if (n =? 13)%nat then String backslash "r"
  else if ((n <? 32) || (n =? 127))%nat
       then String backslash
              (String "x" (String (hex_digit (n / 16)) (String (hex_digit (n mod 16)) "")))
  else String c "".

Fixpoint repr_chars (q : ascii) (s : string) : string :=
  match s with
  | EmptyString => EmptyString
  | String c s' => repr_char q c ++ repr_chars q s'
  end.

Definition repr_str (s : string) : string :=
  let q := repr_quote s in
  String q (repr_chars q s ++ String q "").

Definition repr_int (n : Z) : string := NilZero.string_of_int (Z.to_int n).

(** [repr(v)]. *)
Fixpoint py_repr (v : pyval) : string :=
  match v with
  | VNone => "None"
  | VBool true => "True"
  | VBool false => "False"
  | VInt n => repr_int n
  | VFloat r => r
  | VStr s => repr_str s
  | VList items => "[" ++ join ", " (map py_repr items) ++ "]"
  | VDict entries =>
      "{" ++ join ", "
               (map (fun kv => repr_str (fst kv) ++ ": " ++ py_repr (snd kv)) entries)
          ++ "}"
  end.

(** [str(v)]; also what an f-string field [{v}] prints. *)
Definition py_str (v : pyval) : string :=
  match v with
  | VStr s => s
  | _ => py_repr v
  end.

(* ------------------------------------------------------------------ *)
(** ** Truthiness, [or], [get], iteration *)

(** [bool(v)]. *)
Definition py_truthy (v : pyval) : bool :=
  match v with
  | VNone => false
  | VBool b => b
  | VInt n => negb (Z.eqb n 0)
  | VFloat r => negb (String.eqb r "0.0" || String.eqb r "-0.0")
  | VStr s => negb (str_is_empty s)
  | VList items => match items with [] => false | _ => true end
  | VDict entries => match entries with [] => false | _ => true end
  end.

(** [a or b]. *)
Definition py_or (a b : pyval) : pyval := if py_truthy a then a else b.

Fixpoint dict_get (d : list (string * pyval)) (k : string) : option pyval :=
  match d with
  | [] => None
  | (k', v) :: d' => if String.eqb k k' then Some v else dict_get d' k
  end.

(** [k in d]. *)
Definition dict_has (d : list (string * pyval)) (k : string) : bool :=
  match dict_get d k with
  | Some _ => true
  | None => false
  end.

Definition dict_get_default (d : list (string * pyval)) (k : string) (dflt : pyval) : pyval :=
  match dict_get d k with
  | Some v => v
  | None => dflt
  end.

(** [d[k] = v] on an insertion-ordered dict, and the last step of
    [{**d, k: v}]: an existing key keeps its place. *)
Fixpoint dict_set (d : list (string * pyval)) (k : string) (v : pyval)
  : list (string * pyval) :=
  match d with
  | [] => [(k, v)]
  | (k', v') :: d' =>
      if String.eqb k k' then (k', v) :: d' else (k', v') :: dict_set d' k v
  end.

(** [d.values()]. *)
Definition dict_values (d : list (string * pyval)) : list pyval := map snd d.

(** [o.get(k, dflt)]: only a dict has the method. *)
Definition py_get (o : pyval) (k : string) (dflt : pyval) : res pyval :=
  match o with
  | VDict d => Ok (dict_get_default d k dflt)
  | _ => Raise AttributeError
  end.

(** The items a [for] loop or a comprehension sees. *)
Definition py_iter (o : pyval) : res (list pyval) :=
  match o with
  | VList items => Ok items
  | VStr s => Ok (map (fun c => VStr (String c "")) (list_ascii_of_string s))
  | VDict entries => Ok (map (fun kv => VStr (fst kv)) entries)
  | _ => Raise TypeError
  end.

(** [o.strip()], [o.lower()], [o.upper()]: only a str has the methods. *)
Definition py_strip (o : pyval) : res string :=
  match o with
  | VStr s => Ok (strip s)
  | _ => Raise AttributeError
  end.

Definition py_upper (o : pyval) : res string :=
  match o with
  | VStr s => Ok (upper s)
  | _ => Raise AttributeError
  end.

(** [len(o)]. *)
Definition py_len (o : pyval) : res nat :=
  match o with
  | VList items => Ok (List.length items)
  | VStr s => Ok (String.length s)
  | VDict entries => Ok (List.length entries)
  | _ => Raise TypeError
  end.

End Py.

(* ================================================================== *)
(** * [agents/bundled_match.py]: the Contract Evaluator and the Selector *)

Module BundledMatch.
Import Py.

(** Each canonical label with its synonyms.  The source keeps the
    synonyms in a set; they are only ever enumerated to look for some
    alias that matches, so their order is immaterial. *)
Definition SERVICE_SYNONYMS : list (string * list string) :=
  [ ("physical therapy",
      ["pt"; "pt rehab"; "therapy"; "rehab"; "physiotherapy"; "post-op rehab"]);
    ("influenza vaccine",
      ["flu shot"; "flu vaccine"; "influenza immunization"]) ].

(** [x in xs] for strings. *)
Definition string_in (x : string) (xs : list string) : bool :=
  existsb (String.eqb x) xs.

(** [_tokens(s)], for a str [s]. *)
Definition _tokens (s : string) : list string :=
  filter (fun t => negb (str_is_empty t))
         (split (underscores_to_spaces (lower s))).

(** The [aliases] set of [_service_in_bundle] for a non-empty label [s]:
    [s] itself and, for every group [s] belongs to, the group's base and
    synonyms. *)
Definition aliases_of (s : string) : list string :=
  s :: flat_map
         (fun group =>
            if String.eqb s (fst group) || string_in s (snd group)
            then fst group :: snd group
            else [])
         SERVICE_SYNONYMS.

(** [set(_tokens(a)) & set(_tokens(c))] is non-empty. *)
Definition tokens_meet (a c : string) : bool :=
  existsb (fun t => string_in t (_tokens c)) (_tokens a).

(** The test of the inner loop: [a in c or c in a or (tokens meet)]. *)
Definition alias_hits (a c : string) : bool :=
  contains a c || contains c a || tokens_meet a c.

(** [str(c or "").strip().lower()], the normal form of a covered label. *)
Definition norm_covered (c : pyval) : string :=
  lower (strip (py_str (py_or c (VStr "")))).

(** [_service_in_bundle(service, covered)]; [service] is a str at the
    only call site. *)
Definition _service_in_bundle (service : string) (covered : pyval)
  : res (bool * list string) :=
  let s := lower (strip service) in
  if str_is_empty s then Ok (false, [])
  else
    let aliases := aliases_of s in
    items <- py_iter covered ;;
    let covered_norm := map norm_covered items in
    let matched :=
      filter (fun c => existsb (fun a => alias_hits a c) aliases) covered_norm in
    Ok (Nat.ltb 0 (List.length matched), matched).

Definition strs (l : list string) : pyval := VList (map VStr l).

Definition EVALUATOR_PROMPT : string :=
  "Compare the submitted claim’s service and CPT against the bundled payment contract. "
  ++ "Determine if this claim’s service is already covered under an active episode "
  ++ "(e.g., post‑op physical therapy after a knee surgery) and capture matching evidence.".

(** What lines 38-53 of the source read out of the two records, in the
    order the source reads it ("pull nested fields", "derive claim
    fields"). *)
Record fields : Type := mk_fields {
  plan_name : pyval;
  plan_id : pyval;
  product_type : pyval;
  contract_id : pyval;
  episode_code : pyval;
  covered_services : pyval;
  covered_cpts : list string;
  service : string;
  cpt : string
}.

Definition pull_fields (pt_claim contract : pyval) : res fields :=
  plan <- py_get contract "plan" (VDict []) ;;
  prov <- py_get contract "provider_agreement" (VDict []) ;;
  ep <- py_get contract "episode" (VDict []) ;;
  plan_name <- py_get plan "payer" (VStr "") ;;
  plan_id <- py_get plan "plan_id" (VStr "") ;;
  product_type <- py_get plan "product_type" (VStr "") ;;
  contract_id <- py_get prov "provider_contract_id" (VStr "UNKNOWN") ;;
  episode_code <- py_get ep "episode_code" (VStr "") ;;
  cs <- py_get ep "covered_services" (VList []) ;;
  let covered_services := py_or cs (VList []) in
  cc <- py_get ep "covered_cpts" (VList []) ;;
  cpt_items <- py_iter (py_or cc (VList [])) ;;
  let covered_cpts := map py_str cpt_items in
  sv <- py_get pt_claim "service" VNone ;;
  stripped <- py_strip (py_or sv (VStr "")) ;;
  let service := lower stripped in
  cp <- py_get pt_claim "cpt" VNone ;;
  let cpt := py_str (py_or cp (VStr "")) in
  Ok (mk_fields plan_name plan_id product_type contract_id episode_code
        covered_services covered_cpts service cpt).

(** [cpt_in = bool(cpt and cpt in covered_cpts)]. *)
Definition cpt_match (f : fields) : bool :=
  negb (str_is_empty (cpt f)) && string_in (cpt f) (covered_cpts f).

(** The [parsed] dict of the Evaluator. *)
Definition parsed_result (f : fields) (svc_in : bool) (svc_matched : list string)
  : list (string * pyval) :=
  let cpt_in := cpt_match f in
  let is_in := cpt_in || svc_in in
  let matched_terms := (svc_matched ++ (if cpt_in then [cpt f] else []))%list in
  [ ("status", VStr "ok");
    ("plan_name", plan_name f);
    ("plan_id", plan_id f);
    ("product_type", product_type f);
    ("contract_id", contract_id f);
    ("episode_code", episode_code f);
    ("service", VStr (service f));
    ("cpt", VStr (cpt f));
    ("is_in_bundle", VBool is_in);
    ("matched_terms", strs matched_terms);
    ("evidence",
      VStr ("Matched by CPT or service under " ++ py_str (episode_code f) ++ "."));
    ("debug",
      VDict [ ("covered_services", covered_services f);
              ("covered_cpts", strs (covered_cpts f));
              ("svc_match", VBool svc_in);
              ("cpt_match", VBool cpt_in);
              ("svc_matched_terms", strs svc_matched) ]) ].

(** The [trace] dict of the Evaluator. *)
Definition evaluator_trace (f : fields) (parsed : list (string * pyval))
  : list (string * pyval) :=
  [ ("system_prompt", VStr EVALUATOR_PROMPT);
    ("user_input",
      VDict
        [ ("claim", VDict [("service", VStr (service f)); ("cpt", VStr (cpt f))]);
          ("contract",
            VDict
              [ ("plan",
                  VDict [ ("payer", plan_name f);
                          ("plan_id", plan_id f);
                          ("product_type", product_type f) ]);
                ("provider_agreement",
                  VDict [("provider_contract_id", contract_id f)]);
                ("episode",
                  VDict [ ("episode_code", episode_code f);
                          ("covered_services", covered_services f);
                          ("covered_cpts", strs (covered_cpts f)) ]) ]) ]);
    ("model_output", VStr "Deterministic match; no model output.");
    ("parsed", VDict parsed) ].

(** [_evaluate_against_contract(pt_claim, contract)]. *)
Definition _evaluate_against_contract (pt_claim contract : pyval) : res pyval :=
  f <- pull_fields pt_claim contract ;;
  ' (svc_in, svc_matched) <- _service_in_bundle (service f) (covered_services f) ;;
  let parsed := parsed_result f svc_in svc_matched in
  let trace := evaluator_trace f parsed in
  Ok (VDict (dict_set parsed "trace" (VDict trace))).

Definition SELECTOR_PROMPT : string :=
  "Compare the submitted claim’s service and CPT against the bundled payment contract. "
  ++ "Determine if the claim is part of an active episode and capture matching evidence.".

(** The result of the Selector when there is nothing to evaluate. *)
Definition no_contracts_result (pt_claim : pyval) : pyval :=
  let parsed :=
    [ ("status", VStr "error");
      ("reason", VStr "no_contracts");
      ("is_in_bundle", VBool false);
      ("contract_id", VStr "UNKNOWN");
      ("matched_terms", VList []);
      ("evidence", VStr "No contracts supplied.") ] in
  let trace :=
    [ ("system_prompt", VStr SELECTOR_PROMPT);
      ("user_input", VDict [("claim", pt_claim); ("contracts", VStr "∅")]);
      ("model_output", VStr "No contracts available to evaluate.");
      ("parsed", VDict parsed) ] in
  VDict (dict_set parsed "trace" (VDict trace)).

(** The sort key [(r.get("is_in_bundle", False), len(r.get("matched_terms", [])))].
    The Selector sorts Evaluator results only, whose flag is a bool and
    whose terms are a list ([evaluate_shape] below); keys of any other
    shape are not ordered by this model. *)
Definition sort_key (r : pyval) : res (bool * nat) :=
  flag <- py_get r "is_in_bundle" (VBool false) ;;
  terms <- py_get r "matched_terms" (VList []) ;;
  n <- py_len terms ;;
  match flag with
  | VBool b => Ok (b, n)
  | _ => Raise TypeError
  end.

(** Python's order on the keys: tuples compare lexicographically and
    [False < True]. *)
Definition key_lt (k1 k2 : bool * nat) : bool :=
  match fst k1, fst k2 with
  | false, true => true
  | true, false => false
  | _, _ => Nat.ltb (snd k1) (snd k2)
  end.

(** [list.sort(key=..., reverse=True)] is a stable sort into descending
    key order: an element moves behind exactly those with a strictly
    greater key, and elements with equal keys keep their order. *)
Fixpoint insert_desc {A : Type} (x : (bool * nat) * A) (l : list ((bool * nat) * A))
  : list ((bool * nat) * A) :=
  match l with
  | [] => [x]
  | y :: l' => if key_lt (fst x) (fst y) then y :: insert_desc x l' else x :: l
  end.

Definition sort_desc {A : Type} (l : list ((bool * nat) * A)) : list ((bool * nat) * A) :=
  fold_right insert_desc [] l.

Definition is_dict (v : pyval) : bool :=
  match v with
  | VDict _ => true
  | _ => false
  end.

(** ["contract_id" in contracts], for a dict. *)
Definition has_contract_id (v : pyval) : bool :=
  match v with
  | VDict d => dict_has d "contract_id"
  | _ => false
  end.

(** Lines 124-146 of the source: the answer once every contract has
    been evaluated. *)
Definition best_of (pt_claim : pyval) (results : list pyval) : res pyval :=
  match results with
  | [] => Ok (no_contracts_result pt_claim)
  | _ =>
      keyed <- mapM (fun r => k <- sort_key r ;; Ok (k, r)) results ;;
      match sort_desc keyed with
      | (_, best) :: _ => Ok best
      | [] => Raise IndexError
      end
  end.

(** [bundled_match_agent(pt_claim, contracts)]. *)
Definition bundled_match_agent (pt_claim contracts : pyval) : res pyval :=
  if is_dict contracts && has_contract_id contracts
  then _evaluate_against_contract pt_claim contracts
  else
    results <-
      match contracts with
      | VDict d => mapM (_evaluate_against_contract pt_claim) (dict_values d)
      | _ =>
          items <- py_iter (py_or contracts (VList [])) ;;
          mapM (_evaluate_against_contract pt_claim) items
      end ;;
    best_of pt_claim results.

End BundledMatch.

(* ================================================================== *)
(** * [agents/recommendation.py]: the Decision Mapper *)

Module Recommendation.
Import Py.

(** [v == lit] for a str literal [lit]. *)
Definition py_eq_str (v : pyval) (lit : string) : bool :=
  match v with
  | VStr s => String.eqb s lit
  | _ => false
  end.

Definition MAPPER_PROMPT : string :=
  "Based on the bundled match result, decide whether to PAY, REJECT, or DENY the claim. "
  ++ "Provide a clear reason, citing contract terms and supporting evidence, so the decision "
  ++ "can be reviewed by providers and internal audit teams.".

(** The [parsed] dict the three branches build; they differ in
    [decision], [reason] and [matched_terms] only. *)
Definition reco_parsed (decision reason : string) (matched_terms : pyval)
    (mtch evidence contract_id plan_id plan_name product_type episode_code : pyval)
  : list (string * pyval) :=
  [ ("decision", VStr decision);
    ("reason", VStr reason);
    ("evidence", evidence);
    ("matched_terms", matched_terms);
    ("contract_id", contract_id);
    ("plan_id", plan_id);
    ("plan_name", plan_name);
    ("product_type", product_type);
    ("episode_code", episode_code);
    ("trace", VDict [("bundled_match", mtch)]);
    ("confidence", VFloat "0.9") ].

(** [recommendation_agent(claim, match)]. *)
Definition recommendation_agent (claim mtch : pyval) : res pyval :=
  status <- py_get mtch "status" VNone ;;
  parsed <-
    (if py_eq_str status "skipped" then
       evidence <- py_get mtch "evidence" VNone ;;
       contract_id <- py_get mtch "contract_id" VNone ;;
       plan_id <- py_get mtch "plan_id" VNone ;;
       plan_name <- py_get mtch "plan_name" VNone ;;
       product_type <- py_get mtch "product_type" VNone ;;
       episode_code <- py_get mtch "episode_code" VNone ;;
       Ok (reco_parsed "PAY" "No applicable bundled episode for this plan/claim."
             (VList []) mtch evidence contract_id plan_id plan_name product_type
             episode_code)
     else
       flag <- py_get mtch "is_in_bundle" VNone ;;
       evidence <- py_get mtch "evidence" VNone ;;
       matched_terms <- py_get mtch "matched_terms" (VList []) ;;
       contract_id <- py_get mtch "contract_id" VNone ;;
       plan_id <- py_get mtch "plan_id" VNone ;;
       plan_name <- py_get mtch "plan_name" VNone ;;
       product_type <- py_get mtch "product_type" VNone ;;
       episode_code <- py_get mtch "episode_code" VNone ;;
       if py_truthy flag then
         Ok (reco_parsed "REJECT"
               "Service included in the episode bundle; bill under the episode."
               matched_terms mtch evidence contract_id plan_id plan_name product_type
               episode_code)
       else
         Ok (reco_parsed "PAY" "Service not included in covered bundle terms."
               matched_terms mtch evidence contract_id plan_id plan_name product_type
               episode_code)) ;;
  let trace :=
    [ ("system_prompt", VStr MAPPER_PROMPT);
      ("user_input", VDict [("claim", claim); ("bundled_match", mtch)]);
      ("model_output", VStr "Policy decision; no model output.");
      ("parsed", VDict parsed) ] in
  Ok (VDict (dict_set parsed "trace" (VDict trace))).

End Recommendation.

(* ================================================================== *)
(** * [agents/provider_response.py]: the Response Drafter *)

Module ProviderResponse.
Import Py.

Definition VALID : list string := ["PAY"; "REJECT"; "DENY"; "ADJUST"].

Definition is_valid (d : string) : bool := existsb (String.eqb d) VALID.

(** [", ".join(items[:-1]) + f", and {items[-1]}"], for two items or more. *)
Definition english_join (items : list string) : string :=
  join ", " (removelast items) ++ ", and " ++ last items "".

(** [_list_to_english(items)]. *)
Definition _list_to_english (items : pyval) : res string :=
  xs <- py_iter (py_or items (VList [])) ;;
  let items := map py_str
                 (filter (fun i => negb (str_is_empty (strip (py_str i)))) xs) in
  match items with
  | [] => Ok ""
  | [one] => Ok one
  | _ => Ok (english_join items)
  end.

Definition DRAFTER_PROMPT : string :=
  "Draft a professional, easy‑to‑understand message for the provider explaining the "
  ++ "decision. Include contract references, matched service/CPT, and guidance for "
  ++ "future submissions.".

Definition INVALID_MESSAGE : string :=
  "Recommendation did not include a valid decision (PAY/REJECT/DENY/ADJUST).".

(** The first line of the agent:
    [(decision or reco.get("decision") or reco.get("outcome") or "").upper()]. *)
Definition effective_decision (reco decision : pyval) : res string :=
  chosen <-
    (if py_truthy decision then Ok decision
     else
       d1 <- py_get reco "decision" VNone ;;
       if py_truthy d1 then Ok d1
       else
         d2 <- py_get reco "outcome" VNone ;;
         Ok (py_or d2 (VStr ""))) ;;
  py_upper chosen.

(** The result for a missing or invalid decision. *)
Definition invalid_decision_result (reco : pyval) (decision : string) : pyval :=
  let parsed :=
    [ ("status", VStr "error");
      ("reason", VStr "missing_or_invalid_decision");
      ("message", VStr INVALID_MESSAGE);
      ("decision", py_or (VStr decision) VNone);
      ("reco", reco) ] in
  let trace :=
    [ ("system_prompt", VStr DRAFTER_PROMPT);
      ("user_input", reco);
      ("model_output", dict_get_default parsed "message" VNone);
      ("parsed", VDict parsed) ] in
  VDict (dict_set parsed "trace" (VDict trace)).

(** [draft += extra if cond]. *)
Definition add_if (cond : bool) (extra draft : string) : string :=
  if cond then draft ++ extra else draft.

(** The three branches on the decision: the draft and the next action. *)
Definition compose_draft
    (decision plan_name plan_id product episode_code contract_id ev terms short_reason
       : string) : string * string :=
  let has s := negb (str_is_empty s) in
  if String.eqb decision "PAY" then
    ( add_if (has ev) ("Supporting note: " ++ ev)
        (add_if (has short_reason) (short_reason ++ " ")
           ("Approved for payment. The billed service is not part of the bundled coverage "
            ++ "defined under " ++ plan_name ++ " " ++ product
            ++ " (Plan " ++ plan_id ++ "). ")),
      "Queue for payment and notify provider of approval." )
  else if String.eqb decision "REJECT" || String.eqb decision "DENY" then
    ( add_if (has ev) (" Supporting note: " ++ ev)
        (add_if (has terms) (" Matched bundle terms/CPTs: " ++ terms ++ ".")
           ("This claim has been denied because the billed service is included in "
            ++ episode_code ++ " "
            ++ "under " ++ plan_name ++ " " ++ product ++ " (Plan " ++ plan_id
            ++ ") and provider agreement " ++ contract_id ++ ". "
            ++ "Per contract terms, services that are part of the episode should not be billed separately. "
            ++ "Please bill this service under the episode claim or submit a corrected claim.")),
      "Return claim to provider with denial explanation and contract reference. "
      ++ "Advise resubmission under the bundled episode (or corrected billing)." )
  else
    ( add_if (has ev) (" Supporting note: " ++ ev)
        (add_if (has terms) (" Relevant matched terms/CPTs: " ++ terms ++ ".")
           ("This service falls under " ++ episode_code ++ " for " ++ plan_name
            ++ " (Plan " ++ plan_id ++ "). "
            ++ "The claim will be adjusted per contract terms and allowed amounts for the bundled episode.")),
      "Apply contract adjustment and notify provider of revised allowed amount." ).

(** The result for a valid decision. *)
Definition draft_result (reco : pyval) (decision draft next_action : string) : pyval :=
  let parsed :=
    [ ("status", VStr "ok");
      ("decision", VStr decision);
      ("draft", VStr draft);
      ("next_action", VStr next_action) ] in
  let trace :=
    [ ("system_prompt", VStr DRAFTER_PROMPT);
      ("user_input", reco);
      ("model_output", VStr draft);
      ("parsed", VDict parsed) ] in
  VDict (dict_set parsed "trace" (VDict trace)).

(** [provider_response_agent(reco, decision=None)]. *)
Definition provider_response_agent (reco decision : pyval) : res pyval :=
  decision <- effective_decision reco decision ;;
  if negb (is_valid decision) then Ok (invalid_decision_result reco decision)
  else
    v <- py_get reco "plan_name" VNone ;;
    let plan_name := py_str (py_or v (VStr "the member's health plan")) in
    v <- py_get reco "plan_id" VNone ;;
    let plan_id := py_str (py_or v (VStr "the member’s plan")) in
    v <- py_get reco "product_type" VNone ;;
    let product := py_str (py_or v (VStr "PPO")) in
    v <- py_get reco "episode_code" VNone ;;
    let episode_code := py_str (py_or v (VStr "the bundled episode")) in
    v <- py_get reco "contract_id" VNone ;;
    let contract_id := py_str (py_or v (VStr "the applicable provider agreement")) in
    v <- py_get reco "evidence" VNone ;;
    ev <- py_strip (py_or v (VStr "")) ;;
    v <- py_get reco "matched_terms" (VList []) ;;
    terms <- _list_to_english v ;;
    v <- py_get reco "reason" VNone ;;
    short_reason <- py_strip (py_or v (VStr "")) ;;
    let ' (draft, next_action) :=
      compose_draft decision plan_name plan_id product episode_code contract_id
        ev terms short_reason in
    Ok (draft_result reco decision draft next_action).

End ProviderResponse.

(* ================================================================== *)
(** * Facts about the string primitives *)

Module StringFacts.
Import Py.

Ltac each_char c := destruct c as [[] [] [] [] [] [] [] []].

Lemma is_space_lower_char (c : ascii) : is_space (lower_char c) = is_space c.
Proof. each_char c; reflexivity. Qed.

Lemma lower_char_idem (c : ascii) : lower_char (lower_char c) = lower_char c.
Proof. each_char c; reflexivity. Qed.

Lemma lower_idem (s : string) : lower (lower s) = lower s.
Proof.
  unfold lower. induction s as [|c s IH]; simpl.
  - reflexivity.
  - now rewrite lower_char_idem, IH.
Qed.

Lemma lstrip_lower (s : string) : lstrip (lower s) = lower (lstrip s).
Proof.
  unfold lower. induction s as [|c s IH]; simpl.
  - reflexivity.
  - rewrite is_space_lower_char. destruct (is_space c); [exact IH | reflexivity].
Qed.

Lemma rstrip_lower (s : string) : rstrip (lower s) = lower (rstrip s).
Proof.
  unfold lower. induction s as [|c s IH]; simpl.
  - reflexivity.
  - rewrite IH, is_space_lower_char.
    destruct (rstrip s); simpl; [destruct (is_space c)|]; reflexivity.
Qed.

Lemma strip_lower (s : string) : strip (lower s) = lower (strip s).
Proof. unfold strip. now rewrite lstrip_lower, rstrip_lower. Qed.

Lemma rstrip_idem (s : string) : rstrip (rstrip s) = rstrip s.
Proof.
  induction s as [|c s IH]; simpl.
  - reflexivity.
  - destruct (rstrip s) as [|d t] eqn:E.
    + destruct (is_space c) eqn:Ec; simpl; [reflexivity | now rewrite Ec].
    + change (rstrip (String c (String d t))) with
        (match rstrip (String d t) with
         | EmptyString => if is_space c then EmptyString else String c EmptyString
         | u => String c u
         end).
      now rewrite IH.
Qed.

(** What [lstrip] leaves does not begin with a blank. *)
Lemma lstrip_head (s : string) :
  match lstrip s with
  | EmptyString => True
  | String c _ => is_space c = false
  end.
Proof.
  induction s as [|c s IH]; simpl.
  - exact I.
  - destruct (is_space c) eqn:E; [exact IH | exact E].
Qed.

Lemma rstrip_keeps_head (c : ascii) (s : string) :
  is_space c = false -> exists t, rstrip (String c s) = String c t.
Proof.
  intros Hc. simpl. destruct (rstrip s).
  - rewrite Hc. now exists EmptyString.
  - eauto.
Qed.

Lemma lstrip_strip (s : string) : lstrip (strip s) = strip s.
Proof.
  unfold strip. pose proof (lstrip_head s) as H.
  destruct (lstrip s) as [|c t].
  - reflexivity.
  - destruct (rstrip_keeps_head c t H) as [u ->]. simpl. now rewrite H.
Qed.

Lemma strip_idem (s : string) : strip (strip s) = strip s.
Proof.
  unfold strip at 1. rewrite lstrip_strip. unfold strip. apply rstrip_idem.
Qed.

(** Normalising a label twice, as the Evaluator and then
    [_service_in_bundle] do, is normalising it once. *)
Lemma normalise_twice (s : string) :
  lower (strip (lower (strip s))) = lower (strip s).
Proof. now rewrite strip_lower, strip_idem, lower_idem. Qed.

Lemma str_is_empty_true (s : string) : str_is_empty s = true <-> s = "".
Proof. destruct s; simpl; split; congruence. Qed.

Lemma str_is_empty_false (s : string) : str_is_empty s = false <-> s <> "".
Proof. destruct s; simpl; split; congruence. Qed.

Lemma starts_with_spec (p s : string) :
  starts_with p s = true <-> exists t, s = p ++ t.
Proof.
  revert s. induction p as [|a p IH]; intros s; simpl.
  - split; [intros _; now exists s | reflexivity].
  - destruct s as [|b s].
    + split; [discriminate | intros [t Ht]; discriminate].
    + rewrite andb_true_iff, Ascii.eqb_eq, IH. split.
      * intros [-> [t ->]]. now exists t.
      * intros [t Ht]. injection Ht as -> ->. split; [reflexivity | now exists t].
Qed.

(** The substring relation [a in c] decides. *)
Definition Substring (a c : string) : Prop :=
  exists pre post, c = pre ++ a ++ post.

Lemma contains_spec (a c : string) : contains a c = true <-> Substring a c.
Proof.
  unfold Substring. induction c as [|x c IH].
  - simpl. rewrite orb_false_r, starts_with_spec. split.
    + intros [t Ht]. now exists "", t.
    + intros [pre [post H]]. destruct pre; [|discriminate].
      simpl in H. now exists post.
  - simpl. rewrite orb_true_iff, starts_with_spec, IH. split.
    + intros [[t Ht] | [pre [post H]]].
      * now exists "", t.
      * exists (String x pre), post. simpl. now rewrite H.
    + intros [pre [post H]]. destruct pre as [|y pre]; simpl in H.
      * left. now exists post.
      * right. injection H as _ H. now exists pre, post.
Qed.

Lemma contains_refl (a : string) : contains a a = true.
Proof.
  apply contains_spec. exists "", "". simpl.
  induction a as [|c a IH]; simpl; [reflexivity | now rewrite <- IH].
Qed.

(** ** ASCII text *)

Lemma is_ascii_lower_char (c : ascii) :
  is_ascii_char (lower_char c) = is_ascii_char c.
Proof. destruct c as [[] [] [] [] [] [] [] []]; reflexivity. Qed.

Lemma is_ascii_upper_char (c : ascii) :
  is_ascii_char (upper_char c) = is_ascii_char c.
Proof. destruct c as [[] [] [] [] [] [] [] []]; reflexivity. Qed.

Lemma is_space_ascii (c : ascii) : is_space c = true -> is_ascii_char c = true.
Proof. destruct c as [[] [] [] [] [] [] [] []]; vm_compute; congruence. Qed.

(** Letter case and trimming take no string in or out of ASCII: a
    normal form is ASCII exactly when the text it comes from is. *)
Lemma is_ascii_lower (s : string) : is_ascii (lower s) = is_ascii s.
Proof.
  unfold lower. induction s as [|c s IH]; simpl; [reflexivity|].
  now rewrite is_ascii_lower_char, IH.
Qed.

Lemma is_ascii_upper (s : string) : is_ascii (upper s) = is_ascii s.
Proof.
  unfold upper. induction s as [|c s IH]; simpl; [reflexivity|].
  now rewrite is_ascii_upper_char, IH.
Qed.

Lemma is_ascii_lstrip (s : string) : is_ascii (lstrip s) = is_ascii s.
Proof.
  induction s as [|c s IH]; simpl; [reflexivity|].
  destruct (is_space c) eqn:E; [|reflexivity].
  now rewrite IH, (is_space_ascii c E).
Qed.

Lemma is_ascii_rstrip (s : string) : is_ascii (rstrip s) = is_ascii s.
Proof.
  induction s as [|c s IH]; simpl; [reflexivity|].
  destruct (rstrip s) as [|d t] eqn:E.
  - rewrite <- IH. destruct (is_space c) eqn:Ec; simpl.
    + now rewrite (is_space_ascii c Ec).
    + now rewrite andb_true_r.
  - rewrite <- IH. reflexivity.
Qed.

Lemma is_ascii_strip (s : string) : is_ascii (strip s) = is_ascii s.
Proof. unfold strip. now rewrite is_ascii_rstrip, is_ascii_lstrip. Qed.

End StringFacts.

(* ================================================================== *)
(** * The service match, logically *)

Module ServiceMatch.
Import Py BundledMatch StringFacts.

(** Two labels share a token. *)
Definition SharesToken (a c : string) : Prop :=
  exists t, In t (_tokens a) /\ In t (_tokens c).

(** The relation between an alias and a covered label that counts as a
    match: one occurs in the other, or they share a token. *)
Definition Related (a c : string) : Prop :=
  Substring a c \/ Substring c a \/ SharesToken a c.

(** The Alias Table as the specification words it (section 4.1): the
    label alone unless it is a canonical name or one of its synonyms, in
    which case the canonical name and all its synonyms are added; the
    empty label expands to nothing. *)
Definition spec_expand (label : string) : list string :=
  if str_is_empty label then []
  else
    label ::
    flat_map
      (fun group =>
         if String.eqb label (fst group) || string_in label (snd group)
         then fst group :: snd group
         else [])
      SERVICE_SYNONYMS.

(** The covered service labels in normal form; nothing when the value
    cannot be enumerated. *)
Definition covered_labels (covered : pyval) : list string :=
  match py_iter covered with
  | Ok items => map norm_covered items
  | Raise _ => []
  end.

Lemma string_in_spec (x : string) (xs : list string) :
  string_in x xs = true <-> In x xs.
Proof.
  unfold string_in. rewrite existsb_exists. split.
  - intros [y [Hy E]]. apply String.eqb_eq in E. now subst.
  - intros H. exists x. split; [exact H | apply String.eqb_refl].
Qed.

Lemma tokens_meet_spec (a c : string) :
  tokens_meet a c = true <-> SharesToken a c.
Proof.
  unfold tokens_meet, SharesToken. rewrite existsb_exists.
  split; intros [t [H1 H2]]; exists t; split; try exact H1;
    now apply string_in_spec.
Qed.

Lemma alias_hits_spec (a c : string) : alias_hits a c = true <-> Related a c.
Proof.
  unfold alias_hits, Related.
  now rewrite !orb_true_iff, !contains_spec, tokens_meet_spec, or_assoc.
Qed.

Lemma spec_expand_aliases (s : string) :
  str_is_empty s = false -> spec_expand s = aliases_of s.
Proof. intros H. unfold spec_expand. now rewrite H. Qed.

(** What [_service_in_bundle] returns: the covered labels, in the
    order of the covered list, that some alias of the label is related
    to; and whether there is one. *)
Lemma service_in_bundle_spec (service : string) (covered : pyval)
    (hit : bool) (matched : list string) :
  _service_in_bundle service covered = Ok (hit, matched) ->
  matched =
    filter (fun c => existsb (fun a => alias_hits a c)
                       (spec_expand (lower (strip service))))
           (covered_labels covered)
  /\ hit = negb (Nat.eqb (List.length matched) 0).
Proof.
  unfold _service_in_bundle, spec_expand, covered_labels.
  destruct (str_is_empty (lower (strip service))) eqn:E.
  - intros H. injection H as <- <-. split; [|reflexivity].
    simpl. induction (match py_iter covered with Ok items => _ | Raise _ => _ end);
      simpl; auto.
  - fold (aliases_of (lower (strip service))).
    destruct (py_iter covered) as [items|e]; simpl; [|discriminate].
    intros H. injection H as <- <-. split; [reflexivity|].
    now destruct (filter _ _).
Qed.

Lemma service_hit_iff (service : string) (covered : pyval)
    (hit : bool) (matched : list string) :
  _service_in_bundle service covered = Ok (hit, matched) ->
  (hit = true <->
   exists a c, In a (spec_expand (lower (strip service)))
               /\ In c (covered_labels covered) /\ Related a c).
Proof.
  intros H. apply service_in_bundle_spec in H as [Hm ->].
  split.
  - intros Hn. destruct matched as [|c m]; [discriminate|].
    assert (Hc : In c (c :: m)) by now left.
    rewrite Hm in Hc. apply filter_In in Hc as [Hc Ha].
    apply existsb_exists in Ha as [a [Ha Hr]].
    exists a, c. repeat split; auto. now apply alias_hits_spec.
  - intros [a [c [Ha [Hc Hr]]]].
    assert (Hin : In c matched).
    { rewrite Hm. apply filter_In. split; [exact Hc|].
      apply existsb_exists. exists a. split; [exact Ha | now apply alias_hits_spec]. }
    now destruct matched.
Qed.

Lemma matched_iff (service : string) (covered : pyval)
    (hit : bool) (matched : list string) (c : string) :
  _service_in_bundle service covered = Ok (hit, matched) ->
  (In c matched <->
   In c (covered_labels covered)
   /\ exists a, In a (spec_expand (lower (strip service))) /\ Related a c).
Proof.
  intros H. apply service_in_bundle_spec in H as [-> _].
  rewrite filter_In, existsb_exists.
  split; intros [Hc [a [Ha Hr]]]; (split; [exact Hc|]); exists a;
    (split; [exact Ha | now apply alias_hits_spec]).
Qed.

End ServiceMatch.

(* ================================================================== *)
(** * The Contract Evaluator *)

Module EvaluatorFacts.
Import Py BundledMatch StringFacts ServiceMatch.

(** [r[k]] of a result record, when [r] is a dict that has the key. *)
Definition field (r : pyval) (k : string) : option pyval :=
  match r with
  | VDict d => dict_get d k
  | _ => None
  end.

(** [r["debug"][k]]. *)
Definition debug_field (r : pyval) (k : string) : option pyval :=
  match field r "debug" with
  | Some dbg => field dbg k
  | None => None
  end.

(** The result the Evaluator builds from what it read. *)
Definition result_of (f : fields) (svc_in : bool) (svc_matched : list string) : pyval :=
  let parsed := parsed_result f svc_in svc_matched in
  VDict (dict_set parsed "trace" (VDict (evaluator_trace f parsed))).

Lemma evaluate_unfold (pt_claim contract r : pyval) :
  _evaluate_against_contract pt_claim contract = Ok r ->
  exists f svc_in svc_matched,
    pull_fields pt_claim contract = Ok f
    /\ _service_in_bundle (service f) (covered_services f) = Ok (svc_in, svc_matched)
    /\ r = result_of f svc_in svc_matched.
Proof.
  unfold _evaluate_against_contract, bind.
  destruct (pull_fields pt_claim contract) as [f|e]; [|discriminate].
  destruct (_service_in_bundle (service f) (covered_services f)) as [[b m]|e] eqn:E;
    [|discriminate].
  intros H. injection H as <-. exists f, b, m. auto.
Qed.

Lemma evaluate_fold (pt_claim contract : pyval) (f : fields)
    (svc_in : bool) (svc_matched : list string) :
  pull_fields pt_claim contract = Ok f ->
  _service_in_bundle (service f) (covered_services f) = Ok (svc_in, svc_matched) ->
  _evaluate_against_contract pt_claim contract = Ok (result_of f svc_in svc_matched).
Proof.
  intros Hf Hs. unfold _evaluate_against_contract, bind. now rewrite Hf, Hs.
Qed.

(** The fields of a result. *)
Section ResultFields.
Variables (f : fields) (svc_in : bool) (svc_matched : list string).
Let r := result_of f svc_in svc_matched.









Lemma result_is_in_bundle :
  field r "is_in_bundle" = Some (VBool (cpt_match f || svc_in)).
Proof. reflexivity. Qed.

Lemma result_matched_terms :
  field r "matched_terms"
  = Some (strs (svc_matched ++ (if cpt_match f then [cpt f] else []))%list).
Proof. reflexivity. Qed.


Lemma result_svc_match : debug_field r "svc_match" = Some (VBool svc_in).
Proof. reflexivity. Qed.

Lemma result_cpt_match : debug_field r "cpt_match" = Some (VBool (cpt_match f)).
Proof. reflexivity. Qed.
End ResultFields.

(** ** When the Evaluator returns *)

(** A value [(v or "").strip()] accepts: falsy, or a str. *)
Definition text_ok (v : pyval) : bool :=
  negb (py_truthy v) || match v with VStr _ => true | _ => false end.

(** A value [for c in (v or [])] accepts: falsy, or a list, str or dict. *)
Definition iter_ok (v : pyval) : bool :=
  negb (py_truthy v)
  || match v with VList _ | VStr _ | VDict _ => true | _ => false end.

(** A claim the Evaluator can read: a mapping whose [service], when
    present and truthy, is text. *)
Definition claim_ok (pt_claim : pyval) : bool :=
  match pt_claim with
  | VDict d => text_ok (dict_get_default d "service" VNone)
  | _ => false
  end.

(** A contract the Evaluator can read: a mapping whose three sections,
    when present, are mappings, and whose covered lists, when present and
    truthy, can be enumerated. *)
Definition contract_ok (contract : pyval) : bool :=
  match contract with
  | VDict d =>
      is_dict (dict_get_default d "plan" (VDict []))
      && is_dict (dict_get_default d "provider_agreement" (VDict []))
      && match dict_get_default d "episode" (VDict []) with
         | VDict ep =>
             iter_ok (dict_get_default ep "covered_services" (VList []))
             && iter_ok (dict_get_default ep "covered_cpts" (VList []))
         | _ => false
         end
  | _ => false
  end.

Lemma iter_ok_iter (v : pyval) :
  iter_ok v = true -> exists items, py_iter (py_or v (VList [])) = Ok items.
Proof.
  unfold iter_ok, py_or. destruct (py_truthy v) eqn:T; simpl.
  - destruct v; try discriminate; intros _; simpl; eauto.
  - intros _. simpl. eauto.
Qed.

Lemma text_ok_strip (v : pyval) :
  text_ok v = true -> exists s, py_strip (py_or v (VStr "")) = Ok s.
Proof.
  unfold text_ok, py_or. destruct (py_truthy v) eqn:T; simpl.
  - destruct v; try discriminate; intros _; simpl; eauto.
  - intros _. simpl. eauto.
Qed.

(** The section of a contract under [k], with the source's default. *)
Definition section (contract : pyval) (k : string) : list (string * pyval) :=
  match contract with
  | VDict d =>
      match dict_get_default d k (VDict []) with
      | VDict sec => sec
      | _ => []
      end
  | _ => []
  end.

(** On readable inputs [pull_fields] returns, and every identifier is
    the contract's own or the documented default. *)
Lemma pull_fields_total (pt_claim contract : pyval) :
  claim_ok pt_claim = true ->
  contract_ok contract = true ->
  exists f,
    pull_fields pt_claim contract = Ok f
    /\ plan_name f = dict_get_default (section contract "plan") "payer" (VStr "")
    /\ plan_id f = dict_get_default (section contract "plan") "plan_id" (VStr "")
    /\ product_type f
       = dict_get_default (section contract "plan") "product_type" (VStr "")
    /\ contract_id f
       = dict_get_default (section contract "provider_agreement")
           "provider_contract_id" (VStr "UNKNOWN")
    /\ episode_code f
       = dict_get_default (section contract "episode") "episode_code" (VStr "")
    /\ covered_services f
       = py_or (dict_get_default (section contract "episode") "covered_services"
                  (VList [])) (VList [])
    /\ exists xs, py_iter (covered_services f) = Ok xs.
Proof.
  intros Hc Hk.
  destruct pt_claim as [| | | | |?|cd]; try discriminate.
  destruct contract as [| | | | |?|kd]; try discriminate.
  simpl in Hc, Hk. unfold pull_fields, section. simpl.
  destruct (dict_get_default kd "plan" (VDict [])) as [| | | | |?|plan];
    try discriminate.
  destruct (dict_get_default kd "provider_agreement" (VDict []))
    as [| | | | |?|prov]; try discriminate.
  destruct (dict_get_default kd "episode" (VDict [])) as [| | | | |?|ep];
    try discriminate.
  simpl in Hk. apply andb_true_iff in Hk as [Hs Hp].
  simpl.
  destruct (iter_ok_iter _ Hp) as [items ->].
  destruct (text_ok_strip _ Hc) as [s ->].
  simpl. eexists. split; [reflexivity|]. simpl.
  repeat split.
  exact (iter_ok_iter _ Hs).
Qed.

(** On readable inputs the Evaluator returns a result. *)
Lemma evaluate_total (pt_claim contract : pyval) :
  claim_ok pt_claim = true ->
  contract_ok contract = true ->
  exists f svc_in svc_matched,
    pull_fields pt_claim contract = Ok f
    /\ _service_in_bundle (service f) (covered_services f) = Ok (svc_in, svc_matched)
    /\ _evaluate_against_contract pt_claim contract
       = Ok (result_of f svc_in svc_matched).
Proof.
  intros Hc Hk.
  destruct (pull_fields_total _ _ Hc Hk) as [f [Hf [_ [_ [_ [_ [_ [_ [xs Hit]]]]]]]]].
  assert (Hs : exists p, _service_in_bundle (service f) (covered_services f) = Ok p).
  { unfold _service_in_bundle.
    destruct (str_is_empty _); [eauto|].
    rewrite Hit. simpl. eauto. }
  destruct Hs as [[b m] Hs].
  exists f, b, m. repeat split; auto. now apply evaluate_fold.
Qed.

(** ** What the Evaluator reads, as functions of its inputs *)

(** The claim's normalised service label:
    [(pt_claim.get("service") or "").strip().lower()]. *)
Definition claim_service (pt_claim : pyval) : string :=
  match pt_claim with
  | VDict d =>
      match py_strip (py_or (dict_get_default d "service" VNone) (VStr "")) with
      | Ok s => lower s
      | Raise _ => ""
      end
  | _ => ""
  end.

(** The claim's stringified CPT: [str(pt_claim.get("cpt") or "")]. *)
Definition claim_cpt (pt_claim : pyval) : string :=
  match pt_claim with
  | VDict d => py_str (py_or (dict_get_default d "cpt" VNone) (VStr ""))
  | _ => ""
  end.

(** The contract's covered services: [ep.get("covered_services", []) or []]. *)
Definition contract_covered_services (contract : pyval) : pyval :=
  py_or (dict_get_default (section contract "episode") "covered_services" (VList []))
        (VList []).

(** The contract's covered CPTs, coerced to strings:
    [[str(c) for c in (ep.get("covered_cpts", []) or [])]]. *)
Definition contract_covered_cpts (contract : pyval) : list string :=
  match py_iter (py_or (dict_get_default (section contract "episode")
                          "covered_cpts" (VList [])) (VList [])) with
  | Ok items => map py_str items
  | Raise _ => []
  end.

Lemma pull_fields_inv (pt_claim contract : pyval) (f : fields) :
  pull_fields pt_claim contract = Ok f ->
  service f = claim_service pt_claim
  /\ cpt f = claim_cpt pt_claim
  /\ covered_services f = contract_covered_services contract
  /\ covered_cpts f = contract_covered_cpts contract.
Proof.
  unfold pull_fields, claim_service, claim_cpt, contract_covered_services,
    contract_covered_cpts, section.
  destruct contract as [| | | | |?|kd]; try discriminate. simpl.
  destruct (dict_get_default kd "plan" (VDict [])) as [| | | | |?|plan];
    try discriminate.
  destruct (dict_get_default kd "provider_agreement" (VDict []))
    as [| | | | |?|prov]; try discriminate.
  destruct (dict_get_default kd "episode" (VDict [])) as [| | | | |?|ep];
    try discriminate.
  simpl.
  destruct (py_iter (py_or (dict_get_default ep "covered_cpts" (VList [])) (VList [])))
    as [items|e]; [|discriminate].
  simpl.
  destruct pt_claim as [| | | | |?|cd]; try discriminate. simpl.
  destruct (py_strip (py_or (dict_get_default cd "service" VNone) (VStr "")))
    as [s|e]; [|discriminate].
  simpl. intros H. injection H as <-. simpl. auto.
Qed.

(** The label the Evaluator hands to [_service_in_bundle] is already in
    normal form. *)
Lemma claim_service_normal (pt_claim : pyval) :
  lower (strip (claim_service pt_claim)) = claim_service pt_claim.
Proof.
  unfold claim_service. destruct pt_claim; try reflexivity.
  unfold py_strip.
  destruct (py_or (dict_get_default entries "service" VNone) (VStr ""));
    try reflexivity.
  apply normalise_twice.
Qed.

(** The [is_in_bundle] flag of a result, characterised on the inputs. *)
Lemma evaluate_flag (pt_claim contract r : pyval) :
  _evaluate_against_contract pt_claim contract = Ok r ->
  exists cpt_in svc_in : bool,
    field r "is_in_bundle" = Some (VBool (cpt_in || svc_in))
    /\ debug_field r "cpt_match" = Some (VBool cpt_in)
    /\ debug_field r "svc_match" = Some (VBool svc_in)
    /\ (cpt_in = true <->
        claim_cpt pt_claim <> ""
        /\ In (claim_cpt pt_claim) (contract_covered_cpts contract))
    /\ (svc_in = true <->
        exists a c,
          In a (spec_expand (claim_service pt_claim))
          /\ In c (covered_labels (contract_covered_services contract))
          /\ Related a c).
Proof.
  intros H. apply evaluate_unfold in H as [f [svc_in [m [Hf [Hs ->]]]]].
  apply pull_fields_inv in Hf as [Hsv [Hcpt [Hcs Hcc]]].
  exists (cpt_match f), svc_in.
  repeat split; try reflexivity.
  - unfold cpt_match in H. apply andb_true_iff in H as [H _].
    apply negb_true_iff, str_is_empty_false in H. now rewrite <- Hcpt.
  - unfold cpt_match in H. apply andb_true_iff in H as [_ H].
    apply string_in_spec in H. now rewrite <- Hcpt, <- Hcc.
  - intros [Hne Hin]. unfold cpt_match. rewrite Hcpt, Hcc.
    apply andb_true_iff. split.
    + now apply negb_true_iff, str_is_empty_false.
    + now apply string_in_spec.
  - intros Hb. apply (service_hit_iff _ _ _ _ Hs) in Hb.
    now rewrite Hsv, claim_service_normal, Hcs in Hb.
  - intros Hex. apply (service_hit_iff _ _ _ _ Hs).
    now rewrite Hsv, claim_service_normal, Hcs.
Qed.

End EvaluatorFacts.

(* ================================================================== *)
(** * Properties of the Contract Evaluator *)

Module EvaluatorClaims.
Import Py BundledMatch StringFacts ServiceMatch EvaluatorFacts.

(** ** Sample records *)

(** A claim with a service label and an empty CPT. *)
Definition claim_office_visit : pyval :=
  VDict [("service", VStr "office visit"); ("cpt", VStr "")].

(** A contract whose covered-CPT list holds the empty string. *)
Definition contract_blank_cpt : pyval :=
  VDict
    [ ("provider_agreement", VDict [("provider_contract_id", VStr "PC-7")]);
      ("episode",
        VDict [ ("episode_code", VStr "KNEE-90");
                ("covered_services", VList [VStr "physical therapy"]);
                ("covered_cpts", VList [VStr ""; VStr "97110"]) ]) ].

(** Scenario 1 of the specification. *)
Definition claim_pt_rehab : pyval :=
  VDict [("service", VStr "PT Rehab"); ("cpt", VStr "97110")].

Definition contract_knee : pyval :=
  VDict
    [ ("plan",
        VDict [ ("payer", VStr "Acme Health");
                ("plan_id", VStr "P-100");
                ("product_type", VStr "PPO") ]);
      ("provider_agreement", VDict [("provider_contract_id", VStr "PC-1")]);
      ("episode",
        VDict [ ("episode_code", VStr "KNEE-90");
                ("covered_services", VList [VStr "physical therapy"]);
                ("covered_cpts", VList [VStr "97110"]) ]) ].

(** A contract for another episode, which covers none of the above. *)
Definition contract_flu : pyval :=
  VDict
    [ ("provider_agreement", VDict [("provider_contract_id", VStr "PC-2")]);
      ("episode",
        VDict [ ("episode_code", VStr "FLU-1");
                ("covered_services", VList [VStr "influenza vaccine"]);
                ("covered_cpts", VList [VInt 90686]) ]) ].

Definition result_or_none (m : res pyval) : pyval :=
  match m with
  | Ok r => r
  | Raise _ => VNone
  end.

Definition result_pt_rehab_knee : pyval :=
  Eval vm_compute in
    result_or_none (_evaluate_against_contract claim_pt_rehab contract_knee).

Definition result_office_visit_blank : pyval :=
  Eval vm_compute in
    result_or_none (_evaluate_against_contract claim_office_visit contract_blank_cpt).

Example scenario_1 :
  field result_pt_rehab_knee "is_in_bundle" = Some (VBool true)
  /\ field result_pt_rehab_knee "matched_terms"
     = Some (strs ["physical therapy"; "97110"]).
Proof. split; reflexivity. Qed.

(** ** C1 *)

(** C1, as stated, fails: the CPT of [claim_office_visit] is the empty
    string, which is an exact member of the covered-CPT list of
    [contract_blank_cpt]; yet the Evaluator answers
    [is_in_bundle = False]. *)
Lemma C1_counterexample :
  _evaluate_against_contract claim_office_visit contract_blank_cpt
  = Ok result_office_visit_blank
  /\ In (claim_cpt claim_office_visit) (contract_covered_cpts contract_blank_cpt)
  /\ field result_office_visit_blank "is_in_bundle" = Some (VBool false).
Proof. repeat split. simpl. now left. Qed.

(** The text the Evaluator compares is ASCII: the claim's service label
    and CPT, and the contract's covered labels and covered CPTs, each as
    the Evaluator reads it.  By [is_ascii_lower] and [is_ascii_strip] a
    label in normal form is ASCII exactly when the label as given is. *)
Definition ascii_inputs (pt_claim contract : pyval) : bool :=
  is_ascii (claim_service pt_claim)
  && is_ascii (claim_cpt pt_claim)
  && forallb is_ascii (covered_labels (contract_covered_services contract))
  && forallb is_ascii (contract_covered_cpts contract).

(** C1 (amended), for a claim and a contract whose compared text is
    ASCII: whenever the Evaluator returns a result, its
    [is_in_bundle] is a boolean, and it is [True] if and only if the
    claim's stringified CPT is non-empty and an exact member of the
    contract's covered-CPT list (coerced to strings), or some alias of the
    claim's normalised service label (the label expanded through the
    alias table) and some normalised covered service label are related:
    one is a substring of the other, or they share a token. *)
Theorem C1_in_bundle_iff (pt_claim contract r : pyval) :
  ascii_inputs pt_claim contract = true ->
  _evaluate_against_contract pt_claim contract = Ok r ->
  exists b : bool,
    field r "is_in_bundle" = Some (VBool b)
    /\ (b = true <->
        (claim_cpt pt_claim <> ""
         /\ In (claim_cpt pt_claim) (contract_covered_cpts contract))
        \/ exists a c,
             In a (spec_expand (claim_service pt_claim))
             /\ In c (covered_labels (contract_covered_services contract))
             /\ Related a c).
Proof.
  intros _ H.
  destruct (evaluate_flag _ _ _ H) as [cpt_in [svc_in [Hf [_ [_ [Hc Hs]]]]]].
  exists (cpt_in || svc_in). split; [exact Hf|].
  rewrite orb_true_iff, Hc, Hs. reflexivity.
Qed.

Lemma C1_in_bundle_iff_witness :
  ascii_inputs claim_pt_rehab contract_knee = true
  /\ exists b : bool,
    field result_pt_rehab_knee "is_in_bundle" = Some (VBool b)
    /\ (b = true <->
        (claim_cpt claim_pt_rehab <> ""
         /\ In (claim_cpt claim_pt_rehab) (contract_covered_cpts contract_knee))
        \/ exists a c,
             In a (spec_expand (claim_service claim_pt_rehab))
             /\ In c (covered_labels (contract_covered_services contract_knee))
             /\ Related a c).
Proof.
  split; [reflexivity|].
  apply (C1_in_bundle_iff claim_pt_rehab contract_knee result_pt_rehab_knee);
    reflexivity.
Defined.

(** ** C10 *)

(** C10: when the claim's CPT is absent, or stringifies to the empty
    string, every result of the Evaluator has [cpt_match = False],
    whatever the covered-CPT list holds; [is_in_bundle] is then the
    service match alone, and no CPT is appended to the matched terms. *)
Theorem C10_empty_cpt_never_matches (pt_claim contract r : pyval) :
  field pt_claim "cpt" = None \/ claim_cpt pt_claim = "" ->
  _evaluate_against_contract pt_claim contract = Ok r ->
  debug_field r "cpt_match" = Some (VBool false)
  /\ field r "is_in_bundle" = debug_field r "svc_match"
  /\ field r "matched_terms" = debug_field r "svc_matched_terms".
Proof.
  intros Hcpt H.
  assert (E : claim_cpt pt_claim = "").
  { destruct Hcpt as [Hnone | E]; [|exact E].
    unfold claim_cpt. destruct pt_claim; try reflexivity.
    simpl in Hnone. unfold dict_get_default. now rewrite Hnone. }
  apply evaluate_unfold in H as [f [svc_in [m [Hf [_ ->]]]]].
  apply pull_fields_inv in Hf as [_ [Hc _]].
  assert (Hm : cpt_match f = false).
  { unfold cpt_match. now rewrite Hc, E. }
  rewrite result_cpt_match, result_is_in_bundle, result_svc_match,
    result_matched_terms, Hm.
  repeat split. simpl. now rewrite app_nil_r.
Qed.

Lemma C10_empty_cpt_never_matches_witness :
  In "" (contract_covered_cpts contract_blank_cpt)
  /\ debug_field result_office_visit_blank "cpt_match" = Some (VBool false)
  /\ field result_office_visit_blank "is_in_bundle"
     = debug_field result_office_visit_blank "svc_match"
  /\ field result_office_visit_blank "matched_terms"
     = debug_field result_office_visit_blank "svc_matched_terms".
Proof.
  split; [simpl; now left|].
  apply (C10_empty_cpt_never_matches claim_office_visit contract_blank_cpt).
  - right. reflexivity.
  - reflexivity.
Defined.

(** ** C8 *)




(** ** C7 *)

(** Every member of a synonym group expands to the whole group. *)
Lemma aliases_symmetric (group : string * list string) (a b : string) :
  In group SERVICE_SYNONYMS ->
  In a (fst group :: snd group) ->
  In b (fst group :: snd group) ->
  In b (aliases_of a).
Proof.
  intros Hg Ha Hb.
  assert (Hsel : String.eqb a (fst group) || string_in a (snd group) = true).
  { destruct Ha as [<- | Ha].
    - now rewrite String.eqb_refl.
    - apply orb_true_iff. right. now apply string_in_spec. }
  unfold aliases_of. right. apply in_flat_map.
  exists group. split; [exact Hg|]. now rewrite Hsel.
Qed.

(** A non-empty label in normal form matches every covered list that
    holds a label one of its aliases is related to. *)
Lemma service_match_succeeds (s a : string) (label : pyval) (items : list pyval) :
  lower (strip s) = s ->
  str_is_empty s = false ->
  In a (aliases_of s) ->
  alias_hits a (norm_covered label) = true ->
  In label items ->
  exists matched,
    _service_in_bundle s (VList items) = Ok (true, matched)
    /\ In (norm_covered label) matched.
Proof.
  intros Hn Hs Ha Hhit Hin.
  destruct (_service_in_bundle s (VList items)) as [[hit matched]|e] eqn:E.
  - assert (Hm : In (norm_covered label) matched).
    { apply (matched_iff _ _ _ _ _ E). split.
      - simpl. now apply in_map.
      - exists a. rewrite Hn, spec_expand_aliases by exact Hs.
        split; [exact Ha | now apply alias_hits_spec]. }
    exists matched. split; [|exact Hm].
    apply service_in_bundle_spec in E as [_ ->].
    now destruct matched.
  - unfold _service_in_bundle in E. rewrite Hn, Hs in E. discriminate.
Qed.

(** C7: alias expansion is symmetric within a synonym group.  The label
    ["pt"] matches every covered list that contains ["physical therapy"],
    and the label ["physical therapy"] matches every covered list that
    contains ["pt rehab"]; in both cases the service match succeeds and
    the covered label is among the matched terms. *)
Theorem C7_alias_expansion_symmetric (items : list pyval) :
  (In (VStr "physical therapy") items ->
   exists matched,
     _service_in_bundle "pt" (VList items) = Ok (true, matched)
     /\ In "physical therapy" matched)
  /\ (In (VStr "pt rehab") items ->
      exists matched,
        _service_in_bundle "physical therapy" (VList items) = Ok (true, matched)
        /\ In "pt rehab" matched).
Proof.
  split; intros Hin.
  - apply (service_match_succeeds "pt" "physical therapy"
             (VStr "physical therapy") items); try reflexivity; try exact Hin.
    apply (aliases_symmetric
             ("physical therapy",
              ["pt"; "pt rehab"; "therapy"; "rehab"; "physiotherapy"; "post-op rehab"]));
      simpl; auto.
  - apply (service_match_succeeds "physical therapy" "pt rehab"
             (VStr "pt rehab") items); try reflexivity; try exact Hin.
    apply (aliases_symmetric
             ("physical therapy",
              ["pt"; "pt rehab"; "therapy"; "rehab"; "physiotherapy"; "post-op rehab"]));
      simpl; auto.
Qed.

Lemma C7_alias_expansion_symmetric_witness :
  (exists matched,
     _service_in_bundle "pt" (VList [VStr "knee surgery"; VStr "physical therapy"])
     = Ok (true, matched)
     /\ In "physical therapy" matched)
  /\ (exists matched,
        _service_in_bundle "physical therapy" (VList [VStr "pt rehab"])
        = Ok (true, matched)
        /\ In "pt rehab" matched).
Proof.
  split.
  - apply (proj1 (C7_alias_expansion_symmetric
                    [VStr "knee surgery"; VStr "physical therapy"])).
    simpl. auto.
  - apply (proj2 (C7_alias_expansion_symmetric [VStr "pt rehab"])).
    simpl. auto.
Defined.

(** The two matches on the Evaluator itself, against contracts that
    cover just the one label. *)
Example C7_on_the_evaluator :
  debug_field
    (result_or_none
       (_evaluate_against_contract
          (VDict [("service", VStr "pt")])
          (VDict [("episode",
                   VDict [("covered_services", VList [VStr "physical therapy"])])])))
    "svc_match" = Some (VBool true)
  /\ debug_field
       (result_or_none
          (_evaluate_against_contract
             (VDict [("service", VStr "physical therapy")])
             (VDict [("episode",
                      VDict [("covered_services", VList [VStr "pt rehab"])])])))
       "svc_match" = Some (VBool true).
Proof. split; reflexivity. Qed.

End EvaluatorClaims.

(* ================================================================== *)
(** * The Multi-Contract Selector *)

Module SelectorFacts.
Import Py BundledMatch EvaluatorFacts.

(** ** The order on sort keys *)

Lemma key_lt_spec (a b : bool * nat) :
  key_lt a b = true <->
  (fst a = false /\ fst b = true) \/ (fst a = fst b /\ snd a < snd b).
Proof.
  destruct a as [[] n], b as [[] m]; unfold key_lt; simpl;
    rewrite ?Nat.ltb_lt; intuition (try discriminate; try lia).
Qed.

Lemma key_lt_irrefl (a : bool * nat) : key_lt a a = false.
Proof.
  destruct (key_lt a a) eqn:E; [|reflexivity].
  apply key_lt_spec in E. destruct a as [[] n]; simpl in E; intuition (try discriminate; lia).
Qed.

Lemma key_lt_trans (a b c : bool * nat) :
  key_lt a b = true -> key_lt b c = true -> key_lt a c = true.
Proof.
  rewrite !key_lt_spec.
  destruct a as [[] n], b as [[] m], c as [[] k]; simpl;
    intuition (try discriminate; try lia).
Qed.

(** The order is total on keys: two keys neither of which is below the
    other are equal. *)
Lemma key_lt_total (a b : bool * nat) :
  key_lt a b = false -> key_lt b a = false -> a = b.
Proof.
  intros H1 H2.
  destruct a as [[] n], b as [[] m]; unfold key_lt in *; simpl in *;
    try discriminate; apply Nat.ltb_ge in H1, H2; f_equal; lia.
Qed.

(** If [a] is not below [b] but is below [c], then [b] is below [c]. *)
Lemma key_lt_not_lt (a b c : bool * nat) :
  key_lt a b = false -> key_lt a c = true -> key_lt b c = true.
Proof.
  intros H1 H2. apply key_lt_spec in H2. apply key_lt_spec.
  destruct a as [[] n], b as [[] m], c as [[] k]; unfold key_lt in H1;
    simpl in *; try discriminate; try apply Nat.ltb_ge in H1;
    intuition (try discriminate; try lia).
Qed.

(** ** The stable descending sort *)

Section Sort.
Context {A : Type}.
#[local] Abbreviation keyed := ((bool * nat) * A)%type.

(** The first element, in list order, whose key no element exceeds. *)
Fixpoint first_best (l : list keyed) : option keyed :=
  match l with
  | [] => None
  | x :: l' =>
      match first_best l' with
      | Some y => if key_lt (fst x) (fst y) then Some y else Some x
      | None => Some x
      end
  end.

Lemma insert_desc_perm (x : keyed) (l : list keyed) :
  Permutation (insert_desc x l) (x :: l).
Proof.
  induction l as [|y l IH]; simpl.
  - reflexivity.
  - destruct (key_lt (fst x) (fst y)).
    + rewrite IH. apply perm_swap.
    + reflexivity.
Qed.

Lemma sort_desc_perm (l : list keyed) : Permutation (sort_desc l) l.
Proof.
  induction l as [|x l IH]; simpl.
  - reflexivity.
  - rewrite insert_desc_perm. now constructor.
Qed.

(** Descending: no element is followed by one with a greater key. *)
Inductive descending : list keyed -> Prop :=
| desc_nil : descending []
| desc_cons x l :
    Forall (fun y => key_lt (fst x) (fst y) = false) l ->
    descending l -> descending (x :: l).

Lemma insert_desc_descending (x : keyed) (l : list keyed) :
  descending l -> descending (insert_desc x l).
Proof.
  induction 1 as [|y l Hy Hl IH]; simpl.
  - constructor; constructor.
  - destruct (key_lt (fst x) (fst y)) eqn:E.
    + constructor; [|exact IH].
      eapply Permutation_Forall; [symmetry; apply insert_desc_perm|].
      constructor; [|exact Hy].
      destruct (key_lt (fst y) (fst x)) eqn:E'; [|reflexivity].
      pose proof (key_lt_trans _ _ _ E E') as T.
      now rewrite key_lt_irrefl in T.
    + constructor; [|now constructor].
      constructor; [exact E|].
      eapply Forall_impl; [|exact Hy]. simpl. intros z Hz.
      destruct (key_lt (fst x) (fst z)) eqn:E'; [|reflexivity].
      pose proof (key_lt_not_lt _ _ _ E E') as T. congruence.
Qed.

Lemma sort_desc_descending (l : list keyed) : descending (sort_desc l).
Proof.
  induction l as [|x l IH]; simpl.
  - constructor.
  - now apply insert_desc_descending.
Qed.

Lemma insert_desc_head (x : keyed) (l : list keyed) :
  hd_error (insert_desc x l)
  = match hd_error l with
    | Some y => if key_lt (fst x) (fst y) then Some y else Some x
    | None => Some x
    end.
Proof.
  destruct l as [|y l]; simpl; [reflexivity|].
  now destruct (key_lt (fst x) (fst y)).
Qed.

(** [results[0]] after the sort is the first best element. *)
Lemma sort_desc_head (l : list keyed) : hd_error (sort_desc l) = first_best l.
Proof.
  induction l as [|x l IH]; simpl; [reflexivity|].
  now rewrite insert_desc_head, IH.
Qed.

Lemma first_best_some (l : list keyed) :
  l <> [] -> exists b, first_best l = Some b.
Proof.
  destruct l as [|x l]; [congruence|]. intros _. simpl.
  destruct (first_best l) as [y|]; [|eauto].
  destruct (key_lt (fst x) (fst y)); eauto.
Qed.

(** Everything before the first best element has a strictly smaller
    key; nothing after it has a greater one. *)
Lemma first_best_spec (l : list keyed) (b : keyed) :
  first_best l = Some b ->
  exists pre post,
    l = (pre ++ b :: post)%list
    /\ Forall (fun p => key_lt (fst p) (fst b) = true) pre
    /\ Forall (fun q => key_lt (fst b) (fst q) = false) post.
Proof.
  revert b. induction l as [|x l IH]; intros b; simpl; [discriminate|].
  destruct (first_best l) as [y|] eqn:E.
  - destruct (IH y eq_refl) as [pre [post [-> [Hpre Hpost]]]].
    destruct (key_lt (fst x) (fst y)) eqn:Exy; intros H; injection H as <-.
    + exists (x :: pre), post. repeat split; auto.
    + exists [], (pre ++ y :: post)%list. repeat split; auto.
      apply Forall_app. split.
      * eapply Forall_impl; [|exact Hpre]. simpl. intros p Hp.
        destruct (key_lt (fst x) (fst p)) eqn:Exp; [|reflexivity].
        pose proof (key_lt_trans _ _ _ Exp Hp). congruence.
      * constructor; [exact Exy|].
        eapply Forall_impl; [|exact Hpost]. simpl. intros q Hq.
        destruct (key_lt (fst x) (fst q)) eqn:Exq; [|reflexivity].
        pose proof (key_lt_not_lt _ _ _ Exy Exq). congruence.
  - intros H. injection H as <-.
    destruct l as [|z l]; simpl in E.
    + exists [], []. repeat split; auto.
    + destruct (first_best l) as [w|]; [destruct (key_lt (fst z) (fst w))|];
        discriminate.
Qed.
End Sort.

End SelectorFacts.

Module SelectorClaims.
Import Py BundledMatch EvaluatorFacts SelectorFacts EvaluatorClaims.

(** ** Ranking results *)

(** [r.get("is_in_bundle", False)] of an Evaluator result. *)
Definition in_bundle (r : pyval) : bool :=
  match field r "is_in_bundle" with
  | Some (VBool b) => b
  | _ => false
  end.

(** [len(r.get("matched_terms", []))] of an Evaluator result. *)
Definition term_count (r : pyval) : nat :=
  match field r "matched_terms" with
  | Some (VList terms) => List.length terms
  | _ => 0
  end.

Definition rank (r : pyval) : bool * nat := (in_bundle r, term_count r).

(** The ranking rule: an in-bundle result outranks every result that is
    not in-bundle, whatever the counts; among results of the same
    in-bundle status, more matched terms outrank fewer. *)
Definition outranks (r1 r2 : pyval) : Prop :=
  (in_bundle r1 = true /\ in_bundle r2 = false)
  \/ (in_bundle r1 = in_bundle r2 /\ term_count r2 < term_count r1).

Definition evaluator_result (r : pyval) : Prop :=
  exists f svc_in svc_matched, r = result_of f svc_in svc_matched.

Lemma outranks_key (r1 r2 : pyval) :
  outranks r1 r2 <-> key_lt (rank r2) (rank r1) = true.
Proof.
  rewrite key_lt_spec. unfold outranks, rank. simpl.
  intuition (try congruence).
Qed.

Lemma outranks_irrefl (r : pyval) : ~ outranks r r.
Proof. rewrite outranks_key, key_lt_irrefl. discriminate. Qed.

(** The sort key of an Evaluator result is its rank; computing it never
    raises. *)
Lemma sort_key_result (r : pyval) : evaluator_result r -> sort_key r = Ok (rank r).
Proof. intros [f [b [m ->]]]. reflexivity. Qed.

Definition with_rank (r : pyval) : (bool * nat) * pyval := (rank r, r).

Lemma keyed_results (rs : list pyval) :
  Forall evaluator_result rs ->
  mapM (fun r => k <- sort_key r ;; Ok (k, r)) rs = Ok (map with_rank rs).
Proof.
  induction 1 as [|r rs Hr _ IH]; simpl; [reflexivity|].
  rewrite (sort_key_result r Hr). simpl. now rewrite IH.
Qed.

(** Once there are results, the Selector returns the first of them that
    no other outranks. *)
Lemma best_of_spec (pt_claim : pyval) (rs : list pyval) :
  rs <> [] ->
  Forall evaluator_result rs ->
  exists best pre post,
    best_of pt_claim rs = Ok best
    /\ rs = (pre ++ best :: post)%list
    /\ Forall (fun r => outranks best r) pre
    /\ Forall (fun r => ~ outranks r best) post.
Proof.
  intros Hne Hrs.
  assert (Hbest : best_of pt_claim rs
                  = match sort_desc (map with_rank rs) with
                    | (_, best) :: _ => Ok best
                    | [] => Raise IndexError
                    end).
  { unfold best_of. destruct rs as [|r rs']; [congruence|].
    now rewrite (keyed_results _ Hrs). }
  assert (Hk : map with_rank rs <> []) by (destruct rs; [congruence | discriminate]).
  destruct (first_best_some _ Hk) as [b Hb].
  pose proof (sort_desc_head (map with_rank rs)) as Hh. rewrite Hb in Hh.
  destruct (sort_desc (map with_rank rs)) as [|b' rest]; [discriminate|].
  simpl in Hh. injection Hh as ->.
  destruct (first_best_spec _ _ Hb) as [pre' [post' [Hsplit [Hpre Hpost]]]].
  apply map_eq_app in Hsplit as [pre [tl [-> [<- Htl]]]].
  apply map_eq_cons in Htl as [best [post [-> [<- <-]]]].
  exists best, pre, post. simpl in Hbest.
  repeat split; auto.
  - apply Forall_map in Hpre. eapply Forall_impl; [|exact Hpre].
    simpl. intros r Hr. now apply outranks_key.
  - apply Forall_map in Hpost. eapply Forall_impl; [|exact Hpost].
    simpl. intros r Hr Ho. apply outranks_key in Ho. congruence.
Qed.

(** ** Running the Evaluator over the candidates *)

Definition eval_or_none (pt_claim contract : pyval) : pyval :=
  result_or_none (_evaluate_against_contract pt_claim contract).

(** The Evaluator returns on [contract]. *)
Definition evaluates (pt_claim contract : pyval) : Prop :=
  exists r, _evaluate_against_contract pt_claim contract = Ok r.

Lemma evaluates_readable (pt_claim contract : pyval) :
  claim_ok pt_claim = true -> contract_ok contract = true ->
  evaluates pt_claim contract.
Proof.
  intros Hc Hk. destruct (evaluate_total _ _ Hc Hk) as [f [b [m [_ [_ He]]]]].
  now exists (result_of f b m).
Qed.

Lemma evaluate_all (pt_claim : pyval) (cs : list pyval) :
  Forall (evaluates pt_claim) cs ->
  mapM (_evaluate_against_contract pt_claim) cs = Ok (map (eval_or_none pt_claim) cs)
  /\ Forall evaluator_result (map (eval_or_none pt_claim) cs).
Proof.
  induction 1 as [|c cs [r Hr] _ [IH1 IH2]]; simpl.
  - split; [reflexivity | constructor].
  - unfold eval_or_none at 1 3. rewrite Hr, IH1. simpl.
    split; [reflexivity|]. constructor; [|exact IH2].
    apply evaluate_unfold in Hr as [f [b [m [_ [_ ->]]]]]. now exists f, b, m.
Qed.

Lemma selector_on_sequence (pt_claim : pyval) (cs : list pyval) :
  bundled_match_agent pt_claim (VList cs)
  = (rs <- mapM (_evaluate_against_contract pt_claim) cs ;; best_of pt_claim rs).
Proof. destruct cs; reflexivity. Qed.

Lemma selector_on_mapping (pt_claim : pyval) (d : list (string * pyval)) :
  dict_has d "contract_id" = false ->
  bundled_match_agent pt_claim (VDict d)
  = (rs <- mapM (_evaluate_against_contract pt_claim) (dict_values d) ;;
     best_of pt_claim rs).
Proof. intros H. unfold bundled_match_agent. simpl. now rewrite H. Qed.

Lemma selector_on_single (pt_claim : pyval) (d : list (string * pyval)) :
  dict_has d "contract_id" = true ->
  bundled_match_agent pt_claim (VDict d)
  = _evaluate_against_contract pt_claim (VDict d).
Proof. intros H. unfold bundled_match_agent. simpl. now rewrite H. Qed.

(** The candidates a contract set stands for: the items of a sequence,
    or the values of a mapping that has no ["contract_id"] entry. *)
Definition candidates (contracts : pyval) (cs : list pyval) : Prop :=
  contracts = VList cs
  \/ exists d, contracts = VDict d
               /\ dict_has d "contract_id" = false
               /\ dict_values d = cs.

Lemma selector_on_candidates (pt_claim contracts : pyval) (cs : list pyval) :
  candidates contracts cs ->
  bundled_match_agent pt_claim contracts
  = (rs <- mapM (_evaluate_against_contract pt_claim) cs ;; best_of pt_claim rs).
Proof.
  intros [-> | [d [-> [Hd <-]]]].
  - apply selector_on_sequence.
  - now apply selector_on_mapping.
Qed.

(** ** C6 *)

(** A mapping whose only entry happens to be named ["contract_id"]. *)
Definition mapping_named_contract_id : pyval :=
  VDict [("contract_id", contract_knee)].

Definition result_named_contract_id : pyval :=
  Eval vm_compute in
    result_or_none (bundled_match_agent claim_pt_rehab mapping_named_contract_id).

(** C6, as stated, fails on a mapping that has an entry named
    ["contract_id"]: the only contract of [mapping_named_contract_id]
    evaluates to an in-bundle result with two matched terms, yet the
    Selector returns a result that is not in-bundle and is not the result
    of any contract of the mapping. *)
Lemma C6_counterexample :
  mapM (_evaluate_against_contract claim_pt_rehab)
       (dict_values [("contract_id", contract_knee)])
  = Ok [result_pt_rehab_knee]
  /\ rank result_pt_rehab_knee = (true, 2)
  /\ bundled_match_agent claim_pt_rehab mapping_named_contract_id
     = Ok result_named_contract_id
  /\ rank result_named_contract_id = (false, 0)
  /\ result_named_contract_id <> result_pt_rehab_knee.
Proof. repeat split. discriminate. Qed.

(** C6 (amended): for every claim and every non-empty sequence of
    contracts, or mapping of contracts that has no entry named
    ["contract_id"], on each of which the Evaluator returns a result, the
    Selector returns one of the per-contract Evaluator results, [best],
    such that: every result evaluated before it is outranked by it; no
    result evaluated after it outranks it.  Hence no result outranks the one chosen, and among the
    results of maximal rank the first in evaluation order is chosen.
    Reordering the contracts leaves the rank of the chosen result
    unchanged, and leaves the chosen result itself unchanged when it is
    not tied with any other. *)
Theorem C6_selector_returns_first_best (pt_claim contracts : pyval) (cs : list pyval) :
  candidates contracts cs ->
  cs <> [] ->
  Forall (evaluates pt_claim) cs ->
  exists rs best pre post,
    mapM (_evaluate_against_contract pt_claim) cs = Ok rs
    /\ bundled_match_agent pt_claim contracts = Ok best
    /\ rs = (pre ++ best :: post)%list
    /\ Forall (fun r => outranks best r) pre
    /\ Forall (fun r => ~ outranks r best) post
    /\ forall cs',
         Permutation cs cs' ->
         exists best',
           bundled_match_agent pt_claim (VList cs') = Ok best'
           /\ In best' rs
           /\ rank best' = rank best
           /\ ((forall r, In r (pre ++ post)%list -> outranks best r) -> best' = best).
Proof.
  intros Hcand Hne Hks.
  destruct (evaluate_all pt_claim cs Hks) as [Hrs Hev].
  set (rs := map (eval_or_none pt_claim) cs) in *.
  assert (Hrne : rs <> []) by (subst rs; destruct cs; [congruence | discriminate]).
  destruct (best_of_spec pt_claim rs Hrne Hev) as [best [pre [post [Hb [Hsplit [Hpre Hpost]]]]]].
  exists rs, best, pre, post.
  split; [exact Hrs|].
  split; [rewrite (selector_on_candidates _ _ _ Hcand), Hrs; exact Hb|].
  split; [exact Hsplit|]. split; [exact Hpre|]. split; [exact Hpost|].
  intros cs' Hperm.
  assert (Hks' : Forall (evaluates pt_claim) cs')
    by (eapply Permutation_Forall; eassumption).
  destruct (evaluate_all pt_claim cs' Hks') as [Hrs' Hev'].
  set (rs' := map (eval_or_none pt_claim) cs') in *.
  assert (Hp : Permutation rs rs') by (subst rs rs'; now apply Permutation_map).
  assert (Hrne' : rs' <> []).
  { intros E. rewrite E in Hp. apply Permutation_sym, Permutation_nil in Hp.
    congruence. }
  destruct (best_of_spec pt_claim rs' Hrne' Hev')
    as [best' [pre' [post' [Hb' [Hsplit' [Hpre' Hpost']]]]]].
  (* nothing in a result list outranks the result chosen from it *)
  assert (Hmax : forall r, In r rs -> ~ outranks r best).
  { intros r Hr. rewrite Hsplit in Hr. apply in_app_or in Hr as [Hr | [<- | Hr]].
    - rewrite Forall_forall in Hpre. specialize (Hpre r Hr).
      rewrite outranks_key in *. intros Ho.
      pose proof (key_lt_trans _ _ _ Hpre Ho) as T.
      now rewrite key_lt_irrefl in T.
    - apply outranks_irrefl.
    - rewrite Forall_forall in Hpost. now apply Hpost. }
  assert (Hmax' : forall r, In r rs' -> ~ outranks r best').
  { intros r Hr. rewrite Hsplit' in Hr. apply in_app_or in Hr as [Hr | [<- | Hr]].
    - rewrite Forall_forall in Hpre'. specialize (Hpre' r Hr).
      rewrite outranks_key in *. intros Ho.
      pose proof (key_lt_trans _ _ _ Hpre' Ho) as T.
      now rewrite key_lt_irrefl in T.
    - apply outranks_irrefl.
    - rewrite Forall_forall in Hpost'. now apply Hpost'. }
  assert (Hin' : In best' rs).
  { apply (Permutation_in _ (Permutation_sym Hp)). rewrite Hsplit'.
    apply in_or_app. right. now left. }
  assert (Hin : In best rs').
  { apply (Permutation_in _ Hp). rewrite Hsplit.
    apply in_or_app. right. now left. }
  exists best'.
  split; [rewrite selector_on_sequence, Hrs'; exact Hb'|].
  split; [exact Hin'|].
  split.
  - apply key_lt_total.
    + specialize (Hmax' best Hin). rewrite outranks_key in Hmax'.
      now destruct (key_lt (rank best') (rank best)).
    + specialize (Hmax best' Hin'). rewrite outranks_key in Hmax.
      now destruct (key_lt (rank best) (rank best')).
  - intros Hstrict. rewrite Hsplit in Hin'.
    apply in_app_or in Hin' as [Hr | [E | Hr]]; [exfalso | exact (eq_sym E) | exfalso].
    + apply (Hmax' best Hin), Hstrict, in_or_app. now left.
    + apply (Hmax' best Hin), Hstrict, in_or_app. now right.
Qed.

(** Scenario 4 of the specification: contract A is not in-bundle,
    contract B is in-bundle with two matched terms; the Selector returns
    B's result. *)
Lemma C6_selector_returns_first_best_witness :
  exists rs best pre post,
    mapM (_evaluate_against_contract claim_pt_rehab) [contract_flu; contract_knee]
    = Ok rs
    /\ bundled_match_agent claim_pt_rehab
         (VDict [("A", contract_flu); ("B", contract_knee)]) = Ok best
    /\ rs = (pre ++ best :: post)%list
    /\ Forall (fun r => outranks best r) pre
    /\ Forall (fun r => ~ outranks r best) post
    /\ forall cs',
         Permutation [contract_flu; contract_knee] cs' ->
         exists best',
           bundled_match_agent claim_pt_rehab (VList cs') = Ok best'
           /\ In best' rs
           /\ rank best' = rank best
           /\ ((forall r, In r (pre ++ post)%list -> outranks best r) -> best' = best).
Proof.
  apply (C6_selector_returns_first_best claim_pt_rehab
           (VDict [("A", contract_flu); ("B", contract_knee)])
           [contract_flu; contract_knee]).
  - right. eexists. repeat split.
  - discriminate.
  - repeat constructor; eexists; reflexivity.
Defined.

Example scenario_4 :
  bundled_match_agent claim_pt_rehab
    (VDict [("A", contract_flu); ("B", contract_knee)])
  = Ok result_pt_rehab_knee.
Proof. reflexivity. Qed.

(** ** C3 *)

(** C3: with no contracts (an empty list, an empty mapping, or [None])
    the Selector returns, for every claim whatsoever, the structured
    no-contracts result: status ["error"], reason ["no_contracts"],
    [is_in_bundle = False], contract id ["UNKNOWN"], no matched terms and
    the evidence text; it does not raise. *)
Theorem C3_no_contracts (pt_claim : pyval) :
  bundled_match_agent pt_claim (VList []) = Ok (no_contracts_result pt_claim)
  /\ bundled_match_agent pt_claim (VDict []) = Ok (no_contracts_result pt_claim)
  /\ bundled_match_agent pt_claim VNone = Ok (no_contracts_result pt_claim)
  /\ field (no_contracts_result pt_claim) "status" = Some (VStr "error")
  /\ field (no_contracts_result pt_claim) "reason" = Some (VStr "no_contracts")
  /\ field (no_contracts_result pt_claim) "is_in_bundle" = Some (VBool false)
  /\ field (no_contracts_result pt_claim) "contract_id" = Some (VStr "UNKNOWN")
  /\ field (no_contracts_result pt_claim) "matched_terms" = Some (VList [])
  /\ field (no_contracts_result pt_claim) "evidence"
     = Some (VStr "No contracts supplied.").
Proof. repeat split. Qed.

(** ** C2 *)

Definition result_single_knee : pyval :=
  Eval vm_compute in
    result_or_none (bundled_match_agent claim_pt_rehab contract_knee).

(** C2 does not hold of the code.  Handed the single three-section
    contract [contract_knee], the Selector does not delegate to the
    Evaluator: the contract has no top-level ["contract_id"] key, so its
    three sections are evaluated as if each were a contract, and the
    answer is the evaluation of the [plan] section: not in-bundle, with
    contract id ["UNKNOWN"], where the Evaluator on the contract itself
    answers in-bundle with contract id ["PC-1"]. *)
Lemma C2_single_contract_not_delegated :
  _evaluate_against_contract claim_pt_rehab contract_knee = Ok result_pt_rehab_knee
  /\ bundled_match_agent claim_pt_rehab contract_knee = Ok result_single_knee
  /\ Ok result_single_knee
     = _evaluate_against_contract claim_pt_rehab
         (VDict [ ("payer", VStr "Acme Health");
                  ("plan_id", VStr "P-100");
                  ("product_type", VStr "PPO") ])
  /\ field result_pt_rehab_knee "is_in_bundle" = Some (VBool true)
  /\ field result_single_knee "is_in_bundle" = Some (VBool false)
  /\ field result_pt_rehab_knee "contract_id" = Some (VStr "PC-1")
  /\ field result_single_knee "contract_id" = Some (VStr "UNKNOWN").
Proof. repeat split. Qed.

End SelectorClaims.

(* ================================================================== *)
(** * The Decision Mapper *)

Module MapperClaims.
Import Py Recommendation EvaluatorFacts.

(** [match.get("status") == "skipped"]. *)
Definition skipped (m : list (string * pyval)) : bool :=
  py_eq_str (dict_get_default m "status" VNone) "skipped".

(** [match.get("is_in_bundle")], read as a condition. *)
Definition flagged (m : list (string * pyval)) : bool :=
  py_truthy (dict_get_default m "is_in_bundle" VNone).

(** The decision table. *)
Definition decision_of (m : list (string * pyval)) : string :=
  if skipped m then "PAY" else if flagged m then "REJECT" else "PAY".

Definition reason_of (m : list (string * pyval)) : string :=
  if skipped m then "No applicable bundled episode for this plan/claim."
  else if flagged m
       then "Service included in the episode bundle; bill under the episode."
       else "Service not included in covered bundle terms.".

Definition terms_of (m : list (string * pyval)) : pyval :=
  if skipped m then VList [] else dict_get_default m "matched_terms" (VList []).

(** On a mapping the Mapper always returns, and the fields of its
    Recommendation are the table's row. *)
Lemma recommendation_agent_fields (claim : pyval) (m : list (string * pyval)) :
  exists r,
    recommendation_agent claim (VDict m) = Ok r
    /\ field r "decision" = Some (VStr (decision_of m))
    /\ field r "reason" = Some (VStr (reason_of m))
    /\ field r "evidence" = Some (dict_get_default m "evidence" VNone)
    /\ field r "matched_terms" = Some (terms_of m)
    /\ field r "contract_id" = Some (dict_get_default m "contract_id" VNone)
    /\ field r "plan_id" = Some (dict_get_default m "plan_id" VNone)
    /\ field r "plan_name" = Some (dict_get_default m "plan_name" VNone)
    /\ field r "product_type" = Some (dict_get_default m "product_type" VNone)
    /\ field r "episode_code" = Some (dict_get_default m "episode_code" VNone)
    /\ field r "confidence" = Some (VFloat "0.9").
Proof.
  unfold recommendation_agent, decision_of, reason_of, terms_of, skipped, flagged.
  simpl.
  destruct (py_eq_str (dict_get_default m "status" VNone) "skipped"); simpl;
    [|destruct (py_truthy (dict_get_default m "is_in_bundle" VNone)); simpl];
    eexists; repeat split.
Qed.

(** ** C5 *)

(** C5: for every claim and every MatchResult the Mapper returns a
    Recommendation with confidence 0.9 whose decision is [PAY] when the
    status equals ["skipped"]; otherwise [REJECT], with the reason
    "Service included in the episode bundle; bill under the episode.",
    when [is_in_bundle] holds; otherwise [PAY], with the reason "Service
    not included in covered bundle terms.".  So the decision is always
    [PAY] or [REJECT], never [DENY] or [ADJUST]. *)
Theorem C5_decision_table (claim : pyval) (m : list (string * pyval)) :
  exists r,
    recommendation_agent claim (VDict m) = Ok r
    /\ field r "confidence" = Some (VFloat "0.9")
    /\ (skipped m = true -> field r "decision" = Some (VStr "PAY"))
    /\ (skipped m = false -> flagged m = true ->
        field r "decision" = Some (VStr "REJECT")
        /\ field r "reason"
           = Some (VStr "Service included in the episode bundle; bill under the episode."))
    /\ (skipped m = false -> flagged m = false ->
        field r "decision" = Some (VStr "PAY")
        /\ field r "reason" = Some (VStr "Service not included in covered bundle terms."))
    /\ (field r "decision" = Some (VStr "PAY")
        \/ field r "decision" = Some (VStr "REJECT"))
    /\ field r "decision" <> Some (VStr "DENY")
    /\ field r "decision" <> Some (VStr "ADJUST").
Proof.
  destruct (recommendation_agent_fields claim m)
    as [r [Hr [Hd [Hn [_ [_ [_ [_ [_ [_ [_ Hc]]]]]]]]]]].
  exists r. split; [exact Hr|]. split; [exact Hc|].
  rewrite Hd, Hn. unfold decision_of, reason_of.
  destruct (skipped m); [|destruct (flagged m)];
    repeat split; intros; try discriminate; auto.
Qed.

(** ** C4 *)

(** A skipped match result that nevertheless lists a matched term. *)
Definition skipped_match : pyval :=
  VDict [ ("status", VStr "skipped");
          ("matched_terms", VList [VStr "physical therapy"]);
          ("evidence", VStr "Plan has no bundled episodes.") ].

(** C4, as stated, fails in the ["skipped"] branch: the Recommendation's
    [matched_terms] is the empty list, not the MatchResult's. *)
Lemma C4_counterexample :
  exists r,
    recommendation_agent (VDict []) skipped_match = Ok r
    /\ field skipped_match "matched_terms" = Some (VList [VStr "physical therapy"])
    /\ field r "matched_terms" = Some (VList []).
Proof. eexists. repeat split. Qed.

(** C4 (amended): for every claim and every MatchResult, in every branch
    the Recommendation's [evidence], [contract_id], [plan_id],
    [plan_name], [product_type] and [episode_code] are the MatchResult's
    ([None] for a field the MatchResult lacks); its [matched_terms] is the
    MatchResult's (the empty list when it lacks them) in the in-bundle and
    the default branch, and the empty list in the ["skipped"] branch. *)
Theorem C4_fields_carried_through (claim : pyval) (m : list (string * pyval)) :
  exists r,
    recommendation_agent claim (VDict m) = Ok r
    /\ field r "evidence" = Some (dict_get_default m "evidence" VNone)
    /\ field r "contract_id" = Some (dict_get_default m "contract_id" VNone)
    /\ field r "plan_id" = Some (dict_get_default m "plan_id" VNone)
    /\ field r "plan_name" = Some (dict_get_default m "plan_name" VNone)
    /\ field r "product_type" = Some (dict_get_default m "product_type" VNone)
    /\ field r "episode_code" = Some (dict_get_default m "episode_code" VNone)
    /\ (skipped m = false ->
        field r "matched_terms"
        = Some (dict_get_default m "matched_terms" (VList [])))
    /\ (skipped m = true -> field r "matched_terms" = Some (VList [])).
Proof.
  destruct (recommendation_agent_fields claim m)
    as [r [Hr [_ [_ [He [Ht [H1 [H2 [H3 [H4 [H5 _]]]]]]]]]]].
  exists r. rewrite Ht. unfold terms_of.
  repeat split; auto; intros ->; reflexivity.
Qed.

(** The Mapper on the Evaluator's result for scenario 1: [REJECT], with
    the matched terms and identifiers of the result. *)
Example scenario_1_decision :
  exists r,
    recommendation_agent EvaluatorClaims.claim_pt_rehab
      EvaluatorClaims.result_pt_rehab_knee = Ok r
    /\ field r "decision" = Some (VStr "REJECT")
    /\ field r "matched_terms"
       = Some (VList [VStr "physical therapy"; VStr "97110"])
    /\ field r "contract_id" = Some (VStr "PC-1").
Proof. eexists. repeat split. Qed.

End MapperClaims.

(* ================================================================== *)
(** * The Response Drafter *)

Module DrafterClaims.
Import Py ProviderResponse EvaluatorFacts.

(** The value the Drafter upper-cases: the first truthy one of the
    [decision] argument, the record's [decision] and the record's
    [outcome]; the empty string when there is none. *)
Definition first_truthy (reco : list (string * pyval)) (override : pyval) : pyval :=
  py_or override
    (py_or (dict_get_default reco "decision" VNone)
       (py_or (dict_get_default reco "outcome" VNone) (VStr ""))).

Lemma effective_decision_dict (reco : list (string * pyval)) (override : pyval) :
  effective_decision (VDict reco) override = py_upper (first_truthy reco override).
Proof.
  unfold effective_decision, first_truthy, py_or. simpl.
  destruct (py_truthy override); [reflexivity|].
  destruct (py_truthy (dict_get_default reco "decision" VNone)); reflexivity.
Qed.

(** The text fields of a record the Drafter can read. *)
Definition draftable (reco : list (string * pyval)) : bool :=
  text_ok (dict_get_default reco "evidence" VNone)
  && iter_ok (dict_get_default reco "matched_terms" (VList []))
  && text_ok (dict_get_default reco "reason" VNone).

(** What the Drafter does once the effective decision is the text [d]. *)
Lemma drafter_invalid (reco : list (string * pyval)) (override : pyval) (d : string) :
  effective_decision (VDict reco) override = Ok d ->
  is_valid d = false ->
  provider_response_agent (VDict reco) override
  = Ok (invalid_decision_result (VDict reco) d).
Proof.
  intros Hd Hv. unfold provider_response_agent. rewrite Hd. simpl. now rewrite Hv.
Qed.

Lemma drafter_valid (reco : list (string * pyval)) (override : pyval) (d : string) :
  effective_decision (VDict reco) override = Ok d ->
  is_valid d = true ->
  (forall r,
      provider_response_agent (VDict reco) override = Ok r ->
      exists draft next_action, r = draft_result (VDict reco) d draft next_action)
  /\ (draftable reco = true ->
      exists r, provider_response_agent (VDict reco) override = Ok r).
Proof.
  intros Hd Hv. unfold provider_response_agent. rewrite Hd. simpl. rewrite Hv.
  simpl. split.
  - intros r.
    destruct (py_strip (py_or (dict_get_default reco "evidence" VNone) (VStr "")))
      as [ev|e]; simpl; [|discriminate].
    destruct (_list_to_english (dict_get_default reco "matched_terms" (VList [])))
      as [terms|e]; simpl; [|discriminate].
    destruct (py_strip (py_or (dict_get_default reco "reason" VNone) (VStr "")))
      as [sr|e]; simpl; [|discriminate].
    destruct (compose_draft _ _ _ _ _ _ _ _ _) as [draft na].
    intros H. injection H as <-. now exists draft, na.
  - unfold draftable. intros H.
    apply andb_true_iff in H as [H Hr]. apply andb_true_iff in H as [He Ht].
    destruct (text_ok_strip _ He) as [ev ->]. simpl.
    assert (Hl : exists t,
               _list_to_english (dict_get_default reco "matched_terms" (VList []))
               = Ok t).
    { unfold _list_to_english. destruct (iter_ok_iter _ Ht) as [xs ->]. simpl.
      destruct (map py_str _) as [|a [|b l]]; eauto. }
    destruct Hl as [terms ->]. simpl.
    destruct (text_ok_strip _ Hr) as [sr ->]. simpl.
    destruct (compose_draft _ _ _ _ _ _ _ _ _) as [draft na]. eauto.
Qed.

(** ** C9 *)

(** A record with no [decision] but with an [outcome]. *)
Definition reco_outcome_only : pyval := VDict [("outcome", VStr "pay")].

(** C9, as stated, fails.  The record [reco_outcome_only] has no
    [decision], yet the Drafter returns no error: it takes the decision
    from [outcome] and drafts a [PAY] message.  And for a record whose
    [decision] is the number 5, which is none of the four values, the
    Drafter returns no error result either: it raises. *)
Lemma C9_counterexample :
  field reco_outcome_only "decision" = None
  /\ (exists r,
        provider_response_agent reco_outcome_only VNone = Ok r
        /\ field r "status" = Some (VStr "ok")
        /\ field r "decision" = Some (VStr "PAY"))
  /\ provider_response_agent (VDict [("decision", VInt 5)]) VNone
     = Raise AttributeError.
Proof. split; [reflexivity|]. split; [|reflexivity]. eexists. repeat split. Qed.

(** C9 (amended): let the effective decision of a recommendation record
    be the first truthy value among the Drafter's [decision] argument, the
    record's [decision] and the record's [outcome] (the empty string when
    there is none), and let it be the ASCII text [s].
    - If [s], upper-cased, is not one of [PAY], [REJECT], [DENY],
      [ADJUST], the Drafter returns the error result: status ["error"],
      reason ["missing_or_invalid_decision"], and as [decision] the
      upper-cased text, or [None] when it is empty; no valid decision is
      made up.
    - If [s], upper-cased, is one of the four, whatever its letter case,
      every result the Drafter returns has status ["ok"] and that decision;
      and it does return one when the record's [evidence] and [reason] are
      text (or falsy) and its [matched_terms] can be enumerated. *)
Theorem C9_drafter_decision_gate
    (reco : list (string * pyval)) (override : pyval) (s : string) :
  first_truthy reco override = VStr s ->
  is_ascii s = true ->
  (is_valid (upper s) = false ->
   exists r,
     provider_response_agent (VDict reco) override = Ok r
     /\ field r "status" = Some (VStr "error")
     /\ field r "reason" = Some (VStr "missing_or_invalid_decision")
     /\ field r "decision"
        = Some (if str_is_empty (upper s) then VNone else VStr (upper s))
     /\ field r "draft" = None)
  /\ (is_valid (upper s) = true ->
      (forall r,
          provider_response_agent (VDict reco) override = Ok r ->
          field r "status" = Some (VStr "ok")
          /\ field r "decision" = Some (VStr (upper s)))
      /\ (draftable reco = true ->
          exists r, provider_response_agent (VDict reco) override = Ok r)).
Proof.
  intros Hs _.
  assert (Hd : effective_decision (VDict reco) override = Ok (upper s))
    by now rewrite effective_decision_dict, Hs.
  split; intros Hv.
  - exists (invalid_decision_result (VDict reco) (upper s)).
    split; [now apply drafter_invalid|].
    repeat split. simpl. unfold py_or. simpl. now destruct (str_is_empty (upper s)).
  - destruct (drafter_valid reco override (upper s) Hd Hv) as [Hshape Hret].
    split; [|exact Hret].
    intros r Hr. destruct (Hshape r Hr) as [draft [na ->]]. split; reflexivity.
Qed.

Lemma C9_drafter_decision_gate_witness :
  first_truthy [("decision", VStr "ReJeCt")] VNone = VStr "ReJeCt"
  /\ is_ascii "ReJeCt" = true
  /\ exists r,
       provider_response_agent (VDict [("decision", VStr "ReJeCt")]) VNone = Ok r
       /\ field r "status" = Some (VStr "ok")
       /\ field r "decision" = Some (VStr "REJECT").
Proof.
  split; [reflexivity|]. split; [reflexivity|].
  destruct (C9_drafter_decision_gate [("decision", VStr "ReJeCt")] VNone "ReJeCt"
              eq_refl eq_refl) as [_ Hvalid].
  destruct (Hvalid eq_refl) as [Hfields Hreturns].
  destruct (Hreturns eq_refl) as [r Hr].
  exists r. split; [exact Hr|]. exact (Hfields r Hr).
Defined.

(** The four decisions in mixed case are accepted; an absent decision
    and an unknown word get the error result. *)
Example drafter_examples :
  map (fun d =>
         field (EvaluatorClaims.result_or_none
                  (provider_response_agent (VDict [("decision", VStr d)]) VNone))
               "status")
      ["pay"; "Reject"; "dEnY"; "ADJUST"; "maybe"; ""]
  = [ Some (VStr "ok"); Some (VStr "ok"); Some (VStr "ok"); Some (VStr "ok");
      Some (VStr "error"); Some (VStr "error") ]
  /\ field (EvaluatorClaims.result_or_none (provider_response_agent (VDict []) VNone))
           "decision" = Some VNone.
Proof. split; reflexivity. Qed.

End DrafterClaims.

(* ================================================================== *)
(** * [agents/claim_intake.py]: claim normalisation *)

Module ClaimIntake.
Import Py.

(** CPT code to the service label the contracts use. *)
Definition CPT_TO_SERVICE : list (string * string) :=
  [ ("97110", "physical therapy");
    ("97112", "physical therapy");
    ("90686", "influenza vaccine") ].

(** [CPT_TO_SERVICE.get(code, "")]. *)
Fixpoint service_of_cpt_in (table : list (string * string)) (code : string) : string :=
  match table with
  | [] => ""
  | (k, label) :: rest => if String.eqb code k then label else service_of_cpt_in rest code
  end.

Definition service_of_cpt (code : string) : string :=
  service_of_cpt_in CPT_TO_SERVICE code.

(** [_first_line_cpt(lines)]: the [cpt] of the first line of a non-empty
    list; [None] for anything else. *)
Definition _first_line_cpt (lines : pyval) : res pyval :=
  match lines with
  | VList (first :: _) => py_get first "cpt" VNone
  | _ => Ok VNone
  end.

(** [a or b or c or dflt] over three keys of one record, read lazily. *)
Definition first_of_three (claim : pyval) (k1 k2 k3 : string) (dflt : pyval) : res pyval :=
  a <- py_get claim k1 VNone ;;
  if py_truthy a then Ok a
  else
    b <- py_get claim k2 VNone ;;
    if py_truthy b then Ok b
    else
      c <- py_get claim k3 VNone ;;
      Ok (py_or c dflt).

(** [claim.get("cpt") or claim.get("cpt_code") or _first_line_cpt(lines)],
    where [lines] is only computed when it is needed. *)
Definition cpt_of (claim : pyval) (lines : res pyval) : res pyval :=
  x <- py_get claim "cpt" VNone ;;
  if py_truthy x then Ok x
  else
    y <- py_get claim "cpt_code" VNone ;;
    if py_truthy y then Ok y
    else
      l <- lines ;;
      _first_line_cpt l.

(** [_canon_service(claim)]. *)
Definition _canon_service (claim : pyval) : res string :=
  chosen <- first_of_three claim "service" "description" "procedure" (VStr "") ;;
  svc <- py_strip chosen ;;
  if negb (str_is_empty svc) then Ok svc
  else
    cpt <- cpt_of claim (l <- py_get claim "lines" VNone ;; Ok (py_or l (VList []))) ;;
    if negb (py_truthy cpt) then Ok ""
    else Ok (service_of_cpt (py_str cpt)).

Definition is_none (v : pyval) : bool :=
  match v with
  | VNone => true
  | _ => false
  end.

(** One line of [_coerce_lines]: a copy of a dict line with its [cpt],
    when present and not [None], turned into a str; nothing for a line
    that is not a dict. *)
Definition coerce_line (ln : pyval) : list pyval :=
  match ln with
  | VDict d =>
      match dict_get d "cpt" with
      | Some v => if is_none v then [VDict d] else [VDict (dict_set d "cpt" (VStr (py_str v)))]
      | None => [VDict d]
      end
  | _ => []
  end.

(** [_coerce_lines(lines)]. *)
Definition _coerce_lines (lines : pyval) : list pyval :=
  match lines with
  | VList items => flat_map coerce_line items
  | _ => []
  end.

(** [{**base, **extra}]: the entries of [extra], in order, set into
    [base]. *)
Definition dict_update (base extra : list (string * pyval)) : list (string * pyval) :=
  fold_left (fun d kv => dict_set d (fst kv) (snd kv)) extra base.

(** The entries [**claim] unpacks; a value that is not a mapping cannot
    be unpacked. *)
Definition py_entries (o : pyval) : res (list (string * pyval)) :=
  match o with
  | VDict d => Ok d
  | _ => Raise TypeError
  end.

(** [top_cpt != ""]. *)
Definition is_empty_str (v : pyval) : bool :=
  match v with
  | VStr s => str_is_empty s
  | _ => false
  end.

(** [normalize_claim(claim)]. *)
Definition normalize_claim (claim : pyval) : res pyval :=
  raw <- py_get claim "lines" VNone ;;
  let lines := _coerce_lines raw in
  d1 <- py_get claim "diagnosis" VNone ;;
  found <-
    (if py_truthy d1 then Ok d1
     else d2 <- py_get claim "dx" VNone ;; Ok (py_or d2 (VList []))) ;;
  let diagnosis :=
    match found with
    | VStr s => VList [VStr s]
    | v => v
    end in
  top <- cpt_of claim (Ok (VList lines)) ;;
  let top_cpt :=
    if negb (is_none top) && negb (is_empty_str top) then VStr (py_str top) else top in
  claim_id <- py_get claim "claim_id" VNone ;;
  member_id <- py_get claim "member_id" VNone ;;
  provider_id <- py_get claim "provider_id" VNone ;;
  dos <- py_get claim "dos" VNone ;;
  entries <- py_entries claim ;;
  service <- _canon_service (VDict (dict_update [("lines", VList lines)] entries)) ;;
  Ok (VDict
        (dict_update
           [ ("claim_id", claim_id);
             ("member_id", member_id);
             ("provider_id", provider_id);
             ("dos", dos);
             ("diagnosis", diagnosis);
             ("lines", VList lines);
             ("cpt", top_cpt);
             ("service", VStr service) ]
           entries)).

Definition INTAKE_PROMPT : string :=
  "Read and normalize the incoming claim. Extract and standardize key fields like "
  ++ "member ID, service description, CPT, provider ID, and date of service. Ensure "
  ++ "service names align with internal contract terminology for later matching.".

(** [claim_intake_agent(claim)].  The [traceable] decorator records the
    call and hands the result (or the exception) through unchanged. *)
Definition claim_intake_agent (claim : pyval) : res pyval :=
  normalized <- normalize_claim claim ;;
  claim_id <- py_get normalized "claim_id" VNone ;;
  cpt <- py_get normalized "cpt" VNone ;;
  service <- py_get normalized "service" VNone ;;
  let note :=
    "Normalized claim " ++ py_str claim_id ++ " with CPT " ++ py_str cpt ++ " "
    ++ "as service '" ++ py_str (py_or service (VStr "UNKNOWN")) ++ "'." in
  let trace :=
    [ ("system_prompt", VStr INTAKE_PROMPT);
      ("user_input", claim);
      ("model_output", VStr "Rule-based normalization; no model output.");
      ("parsed", normalized) ] in
  Ok (VDict
        [ ("status", VStr "ok");
          ("normalized_claim", normalized);
          ("notes", VList [VStr note]);
          ("trace", VDict trace) ]).

End ClaimIntake.

(* ================================================================== *)
(** * [chat_ui.py]: the pipeline *)

Module Pipeline.
Import Py ClaimIntake BundledMatch Recommendation ProviderResponse.

(** [run_pipeline(claim)].  [CONTRACTS] is the catalogue the application
    loads from [data/contracts.json] at start-up; here it is an argument. *)
Definition run_pipeline (CONTRACTS claim : pyval) : res pyval :=
  intake <- claim_intake_agent claim ;;
  pt_claim <- py_get intake "normalized_claim" claim ;;
  mtch <- bundled_match_agent pt_claim CONTRACTS ;;
  reco <- recommendation_agent pt_claim mtch ;;
  d1 <- py_get reco "decision" VNone ;;
  chosen <-
    (if py_truthy d1 then Ok d1
     else d2 <- py_get reco "outcome" VNone ;; Ok (py_or d2 (VStr "_"))) ;;
  decision <- py_upper chosen ;;
  entries <- py_entries reco ;;
  let reco' := VDict (dict_set entries "decision" (VStr decision)) in
  response <- provider_response_agent reco' (VStr decision) ;;
  Ok (VDict
        [ ("intake", intake);
          ("match", mtch);
          ("reco", reco');
          ("response", response) ]).

End Pipeline.

(* ================================================================== *)
(** * Facts about dicts *)

Module DictFacts.
Import Py ClaimIntake.

Lemma dict_get_set_same (d : list (string * pyval)) (k : string) (v : pyval) :
  dict_get (dict_set d k v) k = Some v.
Proof.
  induction d as [|[k' v'] d IH]; simpl.
  - now rewrite String.eqb_refl.
  - destruct (String.eqb k k') eqn:E; simpl; rewrite E; [reflexivity | exact IH].
Qed.

Lemma dict_get_set_other (d : list (string * pyval)) (k k' : string) (v : pyval) :
  k' <> k -> dict_get (dict_set d k v) k' = dict_get d k'.
Proof.
  intros Hne. induction d as [|[k0 v0] d IH]; simpl.
  - apply String.eqb_neq in Hne. now rewrite Hne.
  - destruct (String.eqb k k0) eqn:E; simpl.
    + apply String.eqb_eq in E. subst k0.
      apply String.eqb_neq in Hne. now rewrite Hne.
    + destruct (String.eqb k' k0); [reflexivity | exact IH].
Qed.

(** Storing the value a key already has changes nothing. *)
Lemma dict_set_same (d : list (string * pyval)) (k : string) (v : pyval) :
  dict_get d k = Some v -> dict_set d k v = d.
Proof.
  induction d as [|[k' v'] d IH]; simpl; [discriminate|].
  destruct (String.eqb k k') eqn:E.
  - intros H. now injection H as ->.
  - intros H. now rewrite IH.
Qed.

Lemma dict_get_none_not_in (d : list (string * pyval)) (k : string) :
  ~ In k (map fst d) -> dict_get d k = None.
Proof.
  induction d as [|[k' v'] d IH]; simpl; [reflexivity|].
  intros H. destruct (String.eqb k k') eqn:E.
  - apply String.eqb_eq in E. subst. exfalso. apply H. now left.
  - apply IH. intros Hin. apply H. now right.
Qed.

(** [{**base, **extra}[k]] is [extra[k]] when [extra] has the key, and
    [base[k]] otherwise; the keys of [extra] are distinct, as in every
    dict. *)
Lemma dict_get_update (base extra : list (string * pyval)) (k : string) :
  NoDup (map fst extra) ->
  dict_get (dict_update base extra) k
  = match dict_get extra k with
    | Some v => Some v
    | None => dict_get base k
    end.
Proof.
  unfold dict_update. revert base.
  induction extra as [|[k1 v1] extra IH]; intros base Hnd; simpl.
  - reflexivity.
  - inversion Hnd as [|? ? Hnot Hnd']; subst.
    rewrite (IH _ Hnd'). destruct (String.eqb k k1) eqn:E.
    + apply String.eqb_eq in E. subst k1.
      rewrite (dict_get_none_not_in _ _ Hnot). apply dict_get_set_same.
    + destruct (dict_get extra k); [reflexivity|].
      apply dict_get_set_other. now apply String.eqb_neq.
Qed.

End DictFacts.

(* ================================================================== *)
(** * More about the Contract Evaluator *)

Module EvaluatorExtras.
Import Py BundledMatch StringFacts ServiceMatch EvaluatorFacts.

Lemma service_in_bundle_on_list (service : string) (items : list pyval) :
  exists hit matched, _service_in_bundle service (VList items) = Ok (hit, matched).
Proof.
  unfold _service_in_bundle. destruct (str_is_empty _); simpl; eauto.
Qed.

(** A covered-services list with an entry that is [None], empty or
    blank matches every ASCII label that is not blank: the empty string
    occurs in every alias. *)
Theorem blank_covered_label_matches_all
    (service : string) (items : list pyval) (blank : pyval) :
  In blank items ->
  norm_covered blank = "" ->
  is_ascii service = true ->
  lower (strip service) <> "" ->
  exists matched,
    _service_in_bundle service (VList items) = Ok (true, matched)
    /\ In "" matched.
Proof.
  intros Hin Hblank _ Hs.
  destruct (service_in_bundle_on_list service items) as [hit [matched E]].
  assert (Hexp : In (lower (strip service)) (spec_expand (lower (strip service)))).
  { unfold spec_expand. apply str_is_empty_false in Hs. rewrite Hs. now left. }
  assert (Hm : In "" matched).
  { apply (matched_iff _ _ _ _ _ E). split.
    - simpl. rewrite <- Hblank. now apply in_map.
    - exists (lower (strip service)). split; [exact Hexp|].
      right. left. now exists "", (lower (strip service)). }
  exists matched. split; [|exact Hm].
  pose proof (service_in_bundle_spec _ _ _ _ E) as [_ Hhit].
  rewrite E, Hhit. destruct matched; [destruct Hm | reflexivity].
Qed.

Lemma blank_covered_label_matches_all_witness :
  exists matched,
    _service_in_bundle "office visit" (VList [VStr "flu shot"; VNone; VStr "  "])
    = Ok (true, matched)
    /\ In "" matched.
Proof.
  apply (blank_covered_label_matches_all "office visit"
           [VStr "flu shot"; VNone; VStr "  "] VNone).
  - simpl. auto.
  - reflexivity.
  - reflexivity.
  - discriminate.
Defined.

(** A claim with neither a service label nor a CPT is never in-bundle:
    whatever the contract covers, every result has [is_in_bundle = False]
    and no matched terms. *)
Theorem no_service_no_cpt_never_in_bundle (pt_claim contract r : pyval) :
  claim_service pt_claim = "" ->
  claim_cpt pt_claim = "" ->
  _evaluate_against_contract pt_claim contract = Ok r ->
  field r "is_in_bundle" = Some (VBool false)
  /\ field r "matched_terms" = Some (VList []).
Proof.
  intros Hs Hc H.
  apply evaluate_unfold in H as [f [svc_in [m [Hf [Hsvc ->]]]]].
  apply pull_fields_inv in Hf as [Hsv [Hcpt _]].
  apply service_in_bundle_spec in Hsvc as [Hm Hhit].
  rewrite Hsv, Hs in Hm. simpl in Hm.
  assert (Hnil : filter (fun _ : string => false)
                   (covered_labels (covered_services f)) = []).
  { clear. induction (covered_labels (covered_services f)); simpl; auto. }
  rewrite Hnil in Hm. rewrite Hm in Hhit. simpl in Hhit. rewrite Hm, Hhit.
  assert (Hcm : cpt_match f = false).
  { unfold cpt_match. now rewrite Hcpt, Hc. }
  rewrite result_is_in_bundle, result_matched_terms, Hcm. split; reflexivity.
Qed.

Lemma no_service_no_cpt_never_in_bundle_witness :
  field (EvaluatorClaims.result_or_none
           (_evaluate_against_contract
              (VDict [("service", VStr "   "); ("member_id", VStr "M-1")])
              EvaluatorClaims.contract_blank_cpt))
        "is_in_bundle" = Some (VBool false)
  /\ field (EvaluatorClaims.result_or_none
              (_evaluate_against_contract
                 (VDict [("service", VStr "   "); ("member_id", VStr "M-1")])
                 EvaluatorClaims.contract_blank_cpt))
           "matched_terms" = Some (VList []).
Proof.
  apply (no_service_no_cpt_never_in_bundle
           (VDict [("service", VStr "   "); ("member_id", VStr "M-1")])
           EvaluatorClaims.contract_blank_cpt); reflexivity.
Defined.

(** What a result counts: the matched covered labels, plus one when the
    CPT matched. *)
Lemma evaluate_counts (pt_claim contract r : pyval) :
  _evaluate_against_contract pt_claim contract = Ok r ->
  exists (cpt_in : bool) (matched : list string),
    SelectorClaims.in_bundle r = cpt_in || negb (Nat.eqb (List.length matched) 0)
    /\ SelectorClaims.term_count r
       = List.length matched + (if cpt_in then 1 else 0)
    /\ debug_field r "cpt_match" = Some (VBool cpt_in)
    /\ debug_field r "svc_matched_terms" = Some (strs matched).
Proof.
  intros H. apply evaluate_unfold in H as [f [svc_in [m [_ [Hsvc ->]]]]].
  apply service_in_bundle_spec in Hsvc as [_ ->].
  exists (cpt_match f), m. repeat split.
  unfold SelectorClaims.term_count. rewrite result_matched_terms. unfold strs.
  rewrite length_map, length_app. now destruct (cpt_match f).
Qed.

Lemma in_bundle_positive_count (pt_claim contract r : pyval) :
  _evaluate_against_contract pt_claim contract = Ok r ->
  (SelectorClaims.in_bundle r = true <-> 0 < SelectorClaims.term_count r).
Proof.
  intros H. destruct (evaluate_counts _ _ _ H) as [c [m [-> [-> _]]]].
  destruct c, m; simpl; split; intros; try lia; try discriminate; reflexivity.
Qed.

(** In every result of the Evaluator, [is_in_bundle] is true exactly
    when [matched_terms] is not empty. *)
Theorem in_bundle_iff_terms (pt_claim contract r : pyval) :
  _evaluate_against_contract pt_claim contract = Ok r ->
  (SelectorClaims.in_bundle r = true <-> 0 < SelectorClaims.term_count r).
Proof. apply in_bundle_positive_count. Qed.

Lemma in_bundle_iff_terms_witness :
  SelectorClaims.in_bundle EvaluatorClaims.result_pt_rehab_knee = true
  <-> 0 < SelectorClaims.term_count EvaluatorClaims.result_pt_rehab_knee.
Proof.
  apply (in_bundle_iff_terms EvaluatorClaims.claim_pt_rehab
           EvaluatorClaims.contract_knee).
  reflexivity.
Defined.

Lemma evaluate_agree (claim1 claim2 contract : pyval) :
  claim_ok claim1 = true ->
  claim_ok claim2 = true ->
  claim_service claim1 = claim_service claim2 ->
  claim_cpt claim1 = claim_cpt claim2 ->
  _evaluate_against_contract claim1 contract
  = _evaluate_against_contract claim2 contract.
Proof.
  intros H1 H2 Hs Hc.
  assert (Hp : pull_fields claim1 contract = pull_fields claim2 contract).
  { destruct claim1 as [| | | | |?|c1]; try discriminate.
    destruct claim2 as [| | | | |?|c2]; try discriminate.
    simpl in H1, H2. unfold claim_service, claim_cpt in Hs, Hc.
    destruct (text_ok_strip _ H1) as [s1 E1].
    destruct (text_ok_strip _ H2) as [s2 E2].
    rewrite E1, E2 in Hs.
    unfold pull_fields.
    destruct (py_get contract "plan" (VDict [])) as [plan|]; simpl; [|reflexivity].
    destruct (py_get contract "provider_agreement" (VDict [])) as [prov|];
      simpl; [|reflexivity].
    destruct (py_get contract "episode" (VDict [])) as [ep|]; simpl; [|reflexivity].
    destruct (py_get plan "payer" (VStr "")); simpl; [|reflexivity].
    destruct (py_get plan "plan_id" (VStr "")); simpl; [|reflexivity].
    destruct (py_get plan "product_type" (VStr "")); simpl; [|reflexivity].
    destruct (py_get prov "provider_contract_id" (VStr "UNKNOWN")); simpl;
      [|reflexivity].
    destruct (py_get ep "episode_code" (VStr "")); simpl; [|reflexivity].
    destruct (py_get ep "covered_services" (VList [])); simpl; [|reflexivity].
    destruct (py_get ep "covered_cpts" (VList [])); simpl; [|reflexivity].
    destruct (py_iter _); simpl; [|reflexivity].
    rewrite E1, E2. simpl. now rewrite Hs, Hc. }
  unfold _evaluate_against_contract. now rewrite Hp.
Qed.



End EvaluatorExtras.

(* ================================================================== *)
(** * More about the Selector *)

Module SelectorExtras.
Import Py BundledMatch EvaluatorFacts SelectorFacts SelectorClaims EvaluatorExtras.

Lemma mapM_raise {A B : Type} (f : A -> res B) (xs : list A) (x : A) (e : exn) :
  In x xs -> f x = Raise e -> exists e', mapM f xs = Raise e'.
Proof.
  induction xs as [|y xs IH]; simpl; [contradiction|].
  intros [-> | Hin] Hx.
  - rewrite Hx. simpl. eauto.
  - destruct (f y) as [b|e0]; simpl; [|eauto].
    destruct (IH Hin Hx) as [e' ->]. simpl. eauto.
Qed.

(** Every result the Selector ranks is the Evaluator's answer on one of
    the candidates. *)
Lemma results_of_candidates (pt_claim : pyval) (cs : list pyval) (r : pyval) :
  Forall (evaluates pt_claim) cs ->
  In r (map (eval_or_none pt_claim) cs) ->
  exists c, In c cs /\ _evaluate_against_contract pt_claim c = Ok r.
Proof.
  intros Hall Hin. apply in_map_iff in Hin as [c [<- Hc]].
  exists c. split; [exact Hc|].
  rewrite Forall_forall in Hall. destruct (Hall c Hc) as [r Hr].
  unfold eval_or_none. now rewrite Hr.
Qed.

(** Nothing the Selector ranks outranks what it returns. *)
Lemma best_of_max (pt_claim : pyval) (rs : list pyval) :
  rs <> [] ->
  Forall evaluator_result rs ->
  exists best pre post,
    best_of pt_claim rs = Ok best
    /\ rs = (pre ++ best :: post)%list
    /\ Forall (fun r => outranks best r) pre
    /\ forall r, In r rs -> ~ outranks r best.
Proof.
  intros Hne Hev.
  destruct (best_of_spec pt_claim rs Hne Hev)
    as [best [pre [post [Hb [Hsplit [Hpre Hpost]]]]]].
  exists best, pre, post. repeat split; auto.
  intros r Hr. rewrite Hsplit in Hr.
  apply in_app_or in Hr as [Hr | [<- | Hr]].
  - rewrite Forall_forall in Hpre. specialize (Hpre r Hr).
    rewrite outranks_key in *. intros Ho.
    pose proof (key_lt_trans _ _ _ Hpre Ho) as T.
    now rewrite key_lt_irrefl in T.
  - apply outranks_irrefl.
  - rewrite Forall_forall in Hpost. now apply Hpost.
Qed.

(** One contract the Evaluator cannot read aborts the whole selection:
    the Selector raises, even when other candidates match. *)
Theorem selector_aborts_on_unreadable_contract
    (pt_claim contracts : pyval) (cs : list pyval) (c : pyval) (e : exn) :
  candidates contracts cs ->
  In c cs ->
  _evaluate_against_contract pt_claim c = Raise e ->
  exists e', bundled_match_agent pt_claim contracts = Raise e'.
Proof.
  intros Hcand Hin Hc. rewrite (selector_on_candidates _ _ _ Hcand).
  destruct (mapM_raise _ cs c e Hin Hc) as [e' ->]. simpl. eauto.
Qed.

Lemma selector_aborts_on_unreadable_contract_witness :
  exists e',
    bundled_match_agent EvaluatorClaims.claim_pt_rehab
      (VList [EvaluatorClaims.contract_knee; VDict [("episode", VNone)]])
    = Raise e'.
Proof.
  apply (selector_aborts_on_unreadable_contract EvaluatorClaims.claim_pt_rehab
           (VList [EvaluatorClaims.contract_knee; VDict [("episode", VNone)]])
           [EvaluatorClaims.contract_knee; VDict [("episode", VNone)]]
           (VDict [("episode", VNone)]) AttributeError).
  - now left.
  - simpl. auto.
  - reflexivity.
Defined.

(** The Selector's answer is in-bundle exactly when some candidate
    contract evaluates in-bundle. *)
Theorem selector_in_bundle_iff_some_contract
    (pt_claim contracts : pyval) (cs : list pyval) :
  candidates contracts cs ->
  cs <> [] ->
  Forall (evaluates pt_claim) cs ->
  exists best,
    bundled_match_agent pt_claim contracts = Ok best
    /\ (in_bundle best = true <->
        exists c r,
          In c cs
          /\ _evaluate_against_contract pt_claim c = Ok r
          /\ in_bundle r = true).
Proof.
  intros Hcand Hne Hall.
  destruct (evaluate_all pt_claim cs Hall) as [Hrs Hev].
  assert (Hrne : map (eval_or_none pt_claim) cs <> [])
    by (destruct cs; [congruence | discriminate]).
  destruct (best_of_max pt_claim _ Hrne Hev)
    as [best [pre [post [Hb [Hsplit [_ Hmax]]]]]].
  exists best. split.
  - now rewrite (selector_on_candidates _ _ _ Hcand), Hrs.
  - split.
    + intros Hin.
      assert (Hbest : In best (map (eval_or_none pt_claim) cs)).
      { rewrite Hsplit. apply in_or_app. right. now left. }
      destruct (results_of_candidates _ _ _ Hall Hbest) as [c [Hc Hr]].
      now exists c, best.
    + intros [c [r [Hc [Hr Hin]]]].
      assert (Hrin : In r (map (eval_or_none pt_claim) cs)).
      { apply in_map_iff. exists c. split; [|exact Hc].
        unfold eval_or_none. now rewrite Hr. }
      destruct (in_bundle best) eqn:E; [reflexivity|].
      exfalso. apply (Hmax r Hrin). left. now split.
Qed.

Lemma selector_in_bundle_iff_some_contract_witness :
  exists best,
    bundled_match_agent EvaluatorClaims.claim_pt_rehab
      (VList [EvaluatorClaims.contract_flu; EvaluatorClaims.contract_knee]) = Ok best
    /\ (in_bundle best = true <->
        exists c r,
          In c [EvaluatorClaims.contract_flu; EvaluatorClaims.contract_knee]
          /\ _evaluate_against_contract EvaluatorClaims.claim_pt_rehab c = Ok r
          /\ in_bundle r = true).
Proof.
  apply (selector_in_bundle_iff_some_contract EvaluatorClaims.claim_pt_rehab
           (VList [EvaluatorClaims.contract_flu; EvaluatorClaims.contract_knee])
           [EvaluatorClaims.contract_flu; EvaluatorClaims.contract_knee]).
  - now left.
  - discriminate.
  - repeat constructor; eexists; reflexivity.
Defined.

(** When no candidate is in-bundle, all results tie (none has a matched
    term) and the Selector returns the Evaluator's answer on the first
    candidate. *)
Theorem selector_without_match_returns_first
    (pt_claim contracts first : pyval) (rest : list pyval) :
  candidates contracts (first :: rest) ->
  Forall (evaluates pt_claim) (first :: rest) ->
  (forall c r,
      In c (first :: rest) ->
      _evaluate_against_contract pt_claim c = Ok r ->
      in_bundle r = false) ->
  bundled_match_agent pt_claim contracts
  = _evaluate_against_contract pt_claim first.
Proof.
  intros Hcand Hall Hnone.
  destruct (evaluate_all pt_claim _ Hall) as [Hrs Hev].
  assert (Hrne : map (eval_or_none pt_claim) (first :: rest) <> []) by discriminate.
  destruct (best_of_max pt_claim _ Hrne Hev)
    as [best [pre [post [Hb [Hsplit [Hpre _]]]]]].
  assert (Hzero : forall r, In r (map (eval_or_none pt_claim) (first :: rest)) ->
                            in_bundle r = false /\ term_count r = 0).
  { intros r Hr. destruct (results_of_candidates _ _ _ Hall Hr) as [c [Hc Hrc]].
    pose proof (Hnone c r Hc Hrc) as Hf. split; [exact Hf|].
    pose proof (in_bundle_positive_count _ _ _ Hrc) as Hiff. rewrite Hf in Hiff.
    destruct (term_count r); [reflexivity|].
    assert (false = true) by (apply Hiff; lia). discriminate. }
  destruct pre as [|p pre].
  - simpl in Hsplit. injection Hsplit as Hfirst _.
    rewrite (selector_on_candidates _ _ _ Hcand), Hrs. cbv [bind]. rewrite Hb.
    destruct (Forall_inv Hall) as [r0 Hr0].
    rewrite <- Hfirst. unfold eval_or_none. now rewrite Hr0.
  - exfalso. inversion Hpre as [|? ? Ho _]; subst.
    assert (Hbin : In best (map (eval_or_none pt_claim) (first :: rest))).
    { rewrite Hsplit. apply in_or_app. right. now left. }
    assert (Hpin : In p (map (eval_or_none pt_claim) (first :: rest))).
    { rewrite Hsplit. now left. }
    destruct (Hzero best Hbin) as [Hb1 Hb2].
    destruct (Hzero p Hpin) as [Hp1 Hp2].
    destruct Ho as [[Ht _] | [_ Hlt]]; [congruence | lia].
Qed.

Lemma selector_without_match_returns_first_witness :
  bundled_match_agent EvaluatorClaims.claim_office_visit
    (VDict [("flu", EvaluatorClaims.contract_flu);
            ("knee", EvaluatorClaims.contract_knee)])
  = _evaluate_against_contract EvaluatorClaims.claim_office_visit
      EvaluatorClaims.contract_flu.
Proof.
  apply (selector_without_match_returns_first EvaluatorClaims.claim_office_visit
           (VDict [("flu", EvaluatorClaims.contract_flu);
                   ("knee", EvaluatorClaims.contract_knee)])
           EvaluatorClaims.contract_flu [EvaluatorClaims.contract_knee]).
  - right. eexists. repeat split.
  - repeat constructor; eexists; reflexivity.
  - intros c r [<- | [<- | []]] Hr; vm_compute in Hr; injection Hr as <-; reflexivity.
Defined.

End SelectorExtras.

(* ================================================================== *)
(** * The Mapper after the Evaluator and the Selector *)

Module MapperExtras.
Import Py BundledMatch Recommendation EvaluatorFacts SelectorClaims MapperClaims.

(** Any falsy contract set (an empty list or mapping, [None], but also
    [0], [False] or the empty string) is the no-contracts case. *)
Lemma selector_on_falsy (pt_claim contracts : pyval) :
  py_truthy contracts = false ->
  bundled_match_agent pt_claim contracts = Ok (no_contracts_result pt_claim).
Proof.
  intros H. unfold bundled_match_agent.
  destruct contracts as [| b | n | r | s | items | entries]; simpl in *;
    try reflexivity.
  - subst. reflexivity.
  - unfold py_or. simpl. now rewrite H.
  - unfold py_or. simpl. now rewrite H.
  - unfold py_or. simpl. now rewrite H.
  - destruct items; [reflexivity | discriminate].
  - destruct entries; [reflexivity | discriminate].
Qed.

(** On every result of the Evaluator the Mapper decides [REJECT] when
    the result is in-bundle and [PAY], "not included", when it is not;
    the ["skipped"] branch is never taken.  The matched terms, the
    evidence and the contract identifier of the result go into the
    Recommendation. *)
Theorem mapper_rejects_iff_in_bundle (claim pt_claim contract r : pyval) :
  _evaluate_against_contract pt_claim contract = Ok r ->
  exists reco,
    recommendation_agent claim r = Ok reco
    /\ (in_bundle r = true -> field reco "decision" = Some (VStr "REJECT"))
    /\ (in_bundle r = false ->
        field reco "decision" = Some (VStr "PAY")
        /\ field reco "reason"
           = Some (VStr "Service not included in covered bundle terms."))
    /\ field reco "matched_terms" = field r "matched_terms"
    /\ field reco "evidence" = field r "evidence"
    /\ field reco "contract_id" = field r "contract_id".
Proof.
  intros H. apply evaluate_unfold in H as [f [b [m [_ [_ ->]]]]].
  unfold result_of.
  set (entries := dict_set (parsed_result f b m) "trace" _).
  destruct (recommendation_agent_fields claim entries)
    as [reco [Hr [Hd [Hn [He [Ht [Hc _]]]]]]].
  exists reco. split; [exact Hr|].
  rewrite Hd, Hn, He, Ht, Hc.
  unfold decision_of, reason_of, terms_of, in_bundle.
  change (skipped entries) with false.
  change (flagged entries) with (cpt_match f || b).
  change (field (VDict entries) "is_in_bundle") with (Some (VBool (cpt_match f || b))).
  repeat split; try reflexivity; try intros Hb;
    match goal with
    | Hb : _ || _ = _ |- _ => rewrite Hb; reflexivity
    end.
Qed.

Lemma mapper_rejects_iff_in_bundle_witness :
  exists reco,
    recommendation_agent (VDict []) EvaluatorClaims.result_pt_rehab_knee = Ok reco
    /\ (in_bundle EvaluatorClaims.result_pt_rehab_knee = true ->
        field reco "decision" = Some (VStr "REJECT"))
    /\ (in_bundle EvaluatorClaims.result_pt_rehab_knee = false ->
        field reco "decision" = Some (VStr "PAY")
        /\ field reco "reason"
           = Some (VStr "Service not included in covered bundle terms."))
    /\ field reco "matched_terms"
       = field EvaluatorClaims.result_pt_rehab_knee "matched_terms"
    /\ field reco "evidence" = field EvaluatorClaims.result_pt_rehab_knee "evidence"
    /\ field reco "contract_id"
       = field EvaluatorClaims.result_pt_rehab_knee "contract_id".
Proof.
  apply (mapper_rejects_iff_in_bundle (VDict []) EvaluatorClaims.claim_pt_rehab
           EvaluatorClaims.contract_knee).
  reflexivity.
Defined.

(** With no contracts at all the error does not reach the decision: the
    Selector's no-contracts result is mapped to [PAY], "not included",
    with contract id ["UNKNOWN"], like any result that is not in-bundle. *)
Theorem no_contracts_is_mapped_to_pay (claim pt_claim contracts : pyval) :
  py_truthy contracts = false ->
  exists m reco,
    bundled_match_agent pt_claim contracts = Ok m
    /\ field m "status" = Some (VStr "error")
    /\ recommendation_agent claim m = Ok reco
    /\ field reco "decision" = Some (VStr "PAY")
    /\ field reco "reason"
       = Some (VStr "Service not included in covered bundle terms.")
    /\ field reco "contract_id" = Some (VStr "UNKNOWN")
    /\ field reco "evidence" = Some (VStr "No contracts supplied.").
Proof.
  intros H. exists (no_contracts_result pt_claim). eexists.
  split; [now apply selector_on_falsy|]. repeat split.
Qed.

Lemma no_contracts_is_mapped_to_pay_witness :
  exists m reco,
    bundled_match_agent EvaluatorClaims.claim_pt_rehab (VDict []) = Ok m
    /\ field m "status" = Some (VStr "error")
    /\ recommendation_agent EvaluatorClaims.claim_pt_rehab m = Ok reco
    /\ field reco "decision" = Some (VStr "PAY")
    /\ field reco "reason"
       = Some (VStr "Service not included in covered bundle terms.")
    /\ field reco "contract_id" = Some (VStr "UNKNOWN")
    /\ field reco "evidence" = Some (VStr "No contracts supplied.").
Proof.
  apply (no_contracts_is_mapped_to_pay EvaluatorClaims.claim_pt_rehab
           EvaluatorClaims.claim_pt_rehab (VDict [])).
  reflexivity.
Defined.

End MapperExtras.

(* ================================================================== *)
(** * More about the Response Drafter *)

Module DrafterExtras.
Import Py ProviderResponse StringFacts EvaluatorFacts.

(** An item of the list [_list_to_english] keeps: its text is not
    blank. *)
Definition printable (i : pyval) : bool := negb (str_is_empty (strip (py_str i))).

Lemma strip_nonempty (s : string) : strip s <> "" -> s <> "".
Proof. intros H E. apply H. now rewrite E. Qed.

Lemma append_nonempty_r (s t : string) : t <> "" -> (s ++ t)%string <> "".
Proof.
  intros Ht. destruct s; simpl; [exact Ht | discriminate].
Qed.

Lemma english_join_nonempty (items : list string) : english_join items <> "".
Proof. unfold english_join. apply append_nonempty_r. discriminate. Qed.

Lemma list_to_english_eq (v : pyval) (xs : list pyval) :
  py_iter (py_or v (VList [])) = Ok xs ->
  _list_to_english v
  = Ok (match map py_str (filter printable xs) with
        | [] => ""
        | [one] => one
        | items => english_join items
        end).
Proof.
  intros H. unfold _list_to_english. rewrite H. simpl.
  fold printable. now destruct (map py_str (filter printable xs)) as [|a [|b l]].
Qed.

(** On items that print as ASCII text, [_list_to_english] returns the
    empty string exactly when nothing in the list has printable text (the
    list is empty or absent, or every item prints as blanks); the Drafter
    then leaves the matched terms out of the message. *)
Theorem list_to_english_empty_iff (v : pyval) (xs : list pyval) :
  py_iter (py_or v (VList [])) = Ok xs ->
  forallb (fun i => is_ascii (py_str i)) xs = true ->
  exists s,
    _list_to_english v = Ok s
    /\ (s = "" <-> forall i, In i xs -> strip (py_str i) = "").
Proof.
  intros H _. rewrite (list_to_english_eq v xs H). eexists. split; [reflexivity|].
  split.
  - intros Hs i Hi.
    destruct (str_is_empty (strip (py_str i))) eqn:E;
      [now apply str_is_empty_true|].
    exfalso.
    assert (Hin : In (py_str i) (map py_str (filter printable xs))).
    { apply in_map, filter_In. split; [exact Hi|]. unfold printable. now rewrite E. }
    destruct (map py_str (filter printable xs)) as [|a [|b l]] eqn:Em.
    + destruct Hin.
    + destruct Hin as [-> | []]. rewrite Hs in E. discriminate.
    + now apply (english_join_nonempty (a :: b :: l)).
  - intros Hall.
    assert (Hf : filter printable xs = []).
    { clear H. induction xs as [|x xs IH]; simpl; [reflexivity|].
      unfold printable at 1. rewrite (Hall x (or_introl eq_refl)). simpl.
      apply IH. intros i Hi. apply Hall. now right. }
    now rewrite Hf.
Qed.

Lemma list_to_english_empty_iff_witness :
  exists s,
    _list_to_english (VList [VStr "  "; VNone; VStr ""]) = Ok s
    /\ (s = "" <->
        forall i, In i [VStr "  "; VNone; VStr ""] -> strip (py_str i) = "").
Proof.
  apply (list_to_english_empty_iff (VList [VStr "  "; VNone; VStr ""]));
    reflexivity.
Defined.

(** A blank item anywhere in the list does not change what
    [_list_to_english] returns. *)
Theorem list_to_english_skips_blanks (xs ys : list pyval) (blank : pyval) :
  strip (py_str blank) = "" ->
  _list_to_english (VList (xs ++ blank :: ys))
  = _list_to_english (VList (xs ++ ys)).
Proof.
  intros Hb.
  assert (Hi : forall l, py_iter (py_or (VList l) (VList [])) = Ok l)
    by (intros [|? ?]; reflexivity).
  rewrite (list_to_english_eq _ _ (Hi _)), (list_to_english_eq _ _ (Hi _)).
  rewrite !filter_app. simpl. unfold printable at 2. now rewrite Hb.
Qed.

Lemma list_to_english_skips_blanks_witness :
  _list_to_english (VList ([VStr "physical therapy"] ++ VStr " " :: [VInt 97110]))
  = _list_to_english (VList ([VStr "physical therapy"] ++ [VInt 97110])).
Proof.
  apply (list_to_english_skips_blanks [VStr "physical therapy"] [VInt 97110] (VStr " ")).
  reflexivity.
Defined.

(** [REJECT] and [DENY] are drafted alike: for any record, the Drafter
    called with the one decision and with the other either raises the
    same exception or returns results with the same draft and the same
    next action, which differ in the echoed decision only. *)
Theorem reject_and_deny_drafted_alike (reco : pyval) :
  match provider_response_agent reco (VStr "REJECT"),
        provider_response_agent reco (VStr "DENY") with
  | Ok r1, Ok r2 =>
      field r1 "draft" = field r2 "draft"
      /\ field r1 "next_action" = field r2 "next_action"
      /\ field r1 "status" = Some (VStr "ok")
      /\ field r1 "decision" = Some (VStr "REJECT")
      /\ field r2 "decision" = Some (VStr "DENY")
  | Raise e1, Raise e2 => e1 = e2
  | _, _ => False
  end.
Proof.
  unfold provider_response_agent. simpl.
  destruct (py_get reco "plan_name" VNone); simpl; [|reflexivity].
  destruct (py_get reco "plan_id" VNone); simpl; [|reflexivity].
  destruct (py_get reco "product_type" VNone); simpl; [|reflexivity].
  destruct (py_get reco "episode_code" VNone); simpl; [|reflexivity].
  destruct (py_get reco "contract_id" VNone); simpl; [|reflexivity].
  destruct (py_get reco "evidence" VNone); simpl; [|reflexivity].
  destruct (py_strip _); simpl; [|reflexivity].
  destruct (py_get reco "matched_terms" (VList [])); simpl; [|reflexivity].
  destruct (_list_to_english _); simpl; [|reflexivity].
  destruct (py_get reco "reason" VNone); simpl; [|reflexivity].
  destruct (py_strip _); simpl; [|reflexivity].
  repeat split.
Qed.

End DrafterExtras.

(* ================================================================== *)
(** * Claim intake *)

Module IntakeExtras.
Import Py ClaimIntake BundledMatch StringFacts EvaluatorFacts DictFacts.

(** ** [_coerce_lines] and [_first_line_cpt] *)

(** A line as [_coerce_lines] promises it: a dict whose [cpt], when it
    has one, is [None] or a str. *)
Definition line_ok (ln : pyval) : bool :=
  match ln with
  | VDict d =>
      match dict_get d "cpt" with
      | None => true
      | Some VNone => true
      | Some (VStr _) => true
      | Some _ => false
      end
  | _ => false
  end.

Lemma coerce_line_ok (ln : pyval) : Forall (fun l => line_ok l = true) (coerce_line ln).
Proof.
  destruct ln as [| | | | | |d]; simpl; try constructor.
  destruct (dict_get d "cpt") as [v|] eqn:E.
  - destruct (is_none v) eqn:N.
    + destruct v; try discriminate. repeat constructor. simpl. now rewrite E.
    + repeat constructor. simpl. now rewrite dict_get_set_same.
  - repeat constructor. simpl. now rewrite E.
Qed.

(** A line that is already as promised is kept as it is. *)
Lemma coerce_line_fixed (ln : pyval) : line_ok ln = true -> coerce_line ln = [ln].
Proof.
  destruct ln as [| | | | | |d]; simpl; try discriminate.
  destruct (dict_get d "cpt") as [v|] eqn:E; [|reflexivity].
  destruct v; try discriminate; simpl; [reflexivity|].
  intros _. now rewrite (dict_set_same _ _ _ E).
Qed.

Lemma coerce_lines_all_ok (lines : pyval) :
  Forall (fun ln => line_ok ln = true) (_coerce_lines lines).
Proof.
  destruct lines; simpl; try constructor.
  induction items as [|x xs IH]; simpl; [constructor|].
  apply Forall_app. split; [apply coerce_line_ok | exact IH].
Qed.

(** Whatever it is given, [_coerce_lines] returns a list of dicts in
    which every [cpt] is [None] or a str; from a list it keeps one line
    for each item that is a dict and drops the rest, and from anything
    that is not a list it makes the empty list. *)
Theorem coerce_lines_shape (lines : pyval) :
  Forall (fun ln => line_ok ln = true) (_coerce_lines lines)
  /\ (forall items,
         lines = VList items ->
         List.length (_coerce_lines lines) = List.length (filter is_dict items))
  /\ ((forall items, lines <> VList items) -> _coerce_lines lines = []).
Proof.
  split; [apply coerce_lines_all_ok | split].
  - intros items ->. simpl.
    induction items as [|x xs IH]; simpl; [reflexivity|].
    rewrite length_app, IH.
    destruct x as [| | | | | |d]; simpl; try reflexivity.
    destruct (dict_get d "cpt") as [v|]; [destruct (is_none v)|]; reflexivity.
  - intros H. destruct lines; try reflexivity. exfalso. now apply (H items).
Qed.

(** [_coerce_lines] is idempotent. *)
Theorem coerce_lines_idempotent (lines : pyval) :
  _coerce_lines (VList (_coerce_lines lines)) = _coerce_lines lines.
Proof.
  pose proof (coerce_lines_all_ok lines) as H.
  simpl. induction H as [|x xs Hx _ IH]; simpl; [reflexivity|].
  now rewrite (coerce_line_fixed x Hx), IH.
Qed.

Lemma first_line_cpt_coerced (lines : pyval) :
  exists x,
    _first_line_cpt (VList (_coerce_lines lines)) = Ok x
    /\ (x = VNone \/ exists s, x = VStr s).
Proof.
  pose proof (coerce_lines_all_ok lines) as H.
  destruct (_coerce_lines lines) as [|first rest]; simpl.
  - exists VNone. auto.
  - inversion H as [|? ? Hf _]; subst.
    destruct first as [| | | | | |d]; try discriminate. simpl in *.
    unfold dict_get_default.
    destruct (dict_get d "cpt") as [v|]; [|exists VNone; auto].
    destruct v; try discriminate; eexists; split; eauto.
Qed.

(** After [_coerce_lines], [_first_line_cpt] always returns, and what it
    returns is [None] or a str; on a raw list whose first item is not a
    dict it raises instead. *)
Theorem first_line_cpt_safe_after_coerce (lines : pyval) :
  (exists x,
      _first_line_cpt (VList (_coerce_lines lines)) = Ok x
      /\ (x = VNone \/ exists s, x = VStr s))
  /\ (forall first rest,
         lines = VList (first :: rest) ->
         is_dict first = false ->
         _first_line_cpt lines = Raise AttributeError).
Proof.
  split; [apply first_line_cpt_coerced|].
  intros first rest -> Hd. simpl. destruct first; try reflexivity. discriminate.
Qed.

(** ** [normalize_claim] *)

(** [claim.get(k)]. *)
Definition dget (c : list (string * pyval)) (k : string) : pyval :=
  dict_get_default c k VNone.

(** The lines of the claim after [_coerce_lines]. *)
Definition coerced (c : list (string * pyval)) : list pyval :=
  _coerce_lines (dget c "lines").

(** The [diagnosis] entry computed on lines 54-56. *)
Definition diagnosis_of (c : list (string * pyval)) : pyval :=
  let found := py_or (dget c "diagnosis") (py_or (dget c "dx") (VList [])) in
  match found with
  | VStr s => VList [VStr s]
  | v => v
  end.

(** Lines 59-60: [str(top_cpt)] unless it is [None] or [""]. *)
Definition stringify_cpt (top : pyval) : pyval :=
  if negb (is_none top) && negb (is_empty_str top) then VStr (py_str top) else top.

(** The eight canonical entries, before [**claim] is laid over them. *)
Definition canonical (c : list (string * pyval)) (top : pyval) (service : string)
  : list (string * pyval) :=
  [ ("claim_id", dget c "claim_id");
    ("member_id", dget c "member_id");
    ("provider_id", dget c "provider_id");
    ("dos", dget c "dos");
    ("diagnosis", diagnosis_of c);
    ("lines", VList (coerced c));
    ("cpt", stringify_cpt top);
    ("service", VStr service) ].

(** The record [_canon_service] is called on: [{"lines": lines, **claim}]. *)
Definition canon_view (c : list (string * pyval)) : pyval :=
  VDict (dict_update [("lines", VList (coerced c))] c).

Lemma normalize_unfold (c : list (string * pyval)) (n : pyval) :
  normalize_claim (VDict c) = Ok n ->
  exists top service,
    cpt_of (VDict c) (Ok (VList (coerced c))) = Ok top
    /\ _canon_service (canon_view c) = Ok service
    /\ n = VDict (dict_update (canonical c top service) c).
Proof.
  unfold normalize_claim, canon_view, canonical, diagnosis_of, coerced, dget.
  cbn [py_get bind py_entries].
  assert (Hd : (if py_truthy (dict_get_default c "diagnosis" VNone)
                then Ok (dict_get_default c "diagnosis" VNone)
                else Ok (py_or (dict_get_default c "dx" VNone) (VList [])))
               = Ok (py_or (dict_get_default c "diagnosis" VNone)
                       (py_or (dict_get_default c "dx" VNone) (VList [])))).
  { unfold py_or. now destruct (py_truthy (dict_get_default c "diagnosis" VNone)). }
  rewrite Hd. cbn [bind].
  destruct (cpt_of (VDict c) _) as [top|e]; cbn [bind]; [|discriminate].
  destruct (_canon_service _) as [service|e]; cbn [bind]; [|discriminate].
  intros H. injection H as <-. exists top, service. repeat split.
Qed.

Lemma normalize_fold (c : list (string * pyval)) (top : pyval) (service : string) :
  cpt_of (VDict c) (Ok (VList (coerced c))) = Ok top ->
  _canon_service (canon_view c) = Ok service ->
  normalize_claim (VDict c) = Ok (VDict (dict_update (canonical c top service) c)).
Proof.
  intros Ht Hs.
  unfold normalize_claim.
  unfold canon_view, coerced, dget in *.
  cbn [py_get bind py_entries].
  assert (Hd : (if py_truthy (dict_get_default c "diagnosis" VNone)
                then Ok (dict_get_default c "diagnosis" VNone)
                else Ok (py_or (dict_get_default c "dx" VNone) (VList [])))
               = Ok (py_or (dict_get_default c "diagnosis" VNone)
                       (py_or (dict_get_default c "dx" VNone) (VList [])))).
  { unfold py_or. now destruct (py_truthy (dict_get_default c "diagnosis" VNone)). }
  rewrite Hd. cbn [bind]. rewrite Ht. cbn [bind]. rewrite Hs. reflexivity.
Qed.

(** What [_canon_service] sees of the claim: the claim's own entries,
    and the coerced lines only when the claim has no [lines] of its own. *)
Lemma canon_view_get (c : list (string * pyval)) (k : string) (dflt : pyval) :
  NoDup (map fst c) ->
  py_get (canon_view c) k dflt
  = Ok (match dict_get c k with
        | Some v => v
        | None => if String.eqb k "lines" then VList (coerced c) else dflt
        end).
Proof.
  intros Hnd. unfold canon_view. simpl. unfold dict_get_default.
  rewrite (dict_get_update _ _ _ Hnd). simpl.
  destruct (dict_get c k); [reflexivity|]. now destruct (String.eqb k "lines").
Qed.

Lemma normalized_get (c : list (string * pyval)) (top : pyval) (service : string)
    (k : string) :
  NoDup (map fst c) ->
  dict_get (dict_update (canonical c top service) c) k
  = match dict_get c k with
    | Some v => Some v
    | None => dict_get (canonical c top service) k
    end.
Proof. intros Hnd. now apply dict_get_update. Qed.

Lemma cpt_of_unfold (c : list (string * pyval)) (lines : res pyval) :
  cpt_of (VDict c) lines
  = if py_truthy (dget c "cpt") then Ok (dget c "cpt")
    else if py_truthy (dget c "cpt_code") then Ok (dget c "cpt_code")
    else (l <- lines ;; _first_line_cpt l).
Proof.
  unfold cpt_of, dget. cbn [py_get bind].
  destruct (py_truthy (dict_get_default c "cpt" VNone)); [reflexivity|].
  now destruct (py_truthy (dict_get_default c "cpt_code" VNone)).
Qed.

(** The original entries win: every key the claim has keeps the claim's
    own value in the normalised claim, the canonical keys included.  The
    canonical value (stringified CPT, coerced lines, diagnosis as a list,
    derived service) is only seen under a key the claim lacks. *)
Theorem normalize_keeps_original_values
    (c : list (string * pyval)) (n : pyval) (k : string) (v : pyval) :
  NoDup (map fst c) ->
  normalize_claim (VDict c) = Ok n ->
  dict_get c k = Some v ->
  field n k = Some v.
Proof.
  intros Hnd Hn Hk.
  apply normalize_unfold in Hn as [top [service [_ [_ ->]]]].
  simpl. now rewrite (normalized_get _ _ _ _ Hnd), Hk.
Qed.

Lemma normalize_keeps_original_values_witness :
  field (EvaluatorClaims.result_or_none
           (normalize_claim
              (VDict [("cpt", VInt 97110); ("diagnosis", VStr "M17.11");
                      ("lines", VList [VStr "x"; VDict [("cpt", VInt 97110)]])])))
        "cpt" = Some (VInt 97110).
Proof.
  apply (normalize_keeps_original_values
           [("cpt", VInt 97110); ("diagnosis", VStr "M17.11");
            ("lines", VList [VStr "x"; VDict [("cpt", VInt 97110)]])]
           _ "cpt" (VInt 97110)).
  - repeat constructor; simpl; intuition discriminate.
  - reflexivity.
  - reflexivity.
Defined.

Definition CANONICAL_KEYS : list string :=
  [ "claim_id"; "member_id"; "provider_id"; "dos";
    "diagnosis"; "lines"; "cpt"; "service" ].

(** A normalised claim has all eight canonical keys.  Under a key the
    claim itself lacks, [cpt] is [None] or a str, [service] is a str and
    [lines] is the empty list. *)
Theorem normalize_fills_canonical_keys (c : list (string * pyval)) (n : pyval) :
  NoDup (map fst c) ->
  normalize_claim (VDict c) = Ok n ->
  (forall k, In k CANONICAL_KEYS -> exists v, field n k = Some v)
  /\ (dict_get c "cpt" = None ->
      field n "cpt" = Some VNone \/ exists s, field n "cpt" = Some (VStr s))
  /\ (dict_get c "service" = None -> exists s, field n "service" = Some (VStr s))
  /\ (dict_get c "lines" = None -> field n "lines" = Some (VList [])).
Proof.
  intros Hnd Hn.
  apply normalize_unfold in Hn as [top [service [Htop [_ ->]]]].
  simpl field. split; [|split; [|split]].
  - intros k Hk. rewrite (normalized_get _ _ _ _ Hnd).
    destruct (dict_get c k) as [v|]; [eauto|].
    simpl in Hk.
    repeat (destruct Hk as [<- | Hk]; [simpl; eauto|]). destruct Hk.
  - intros Hc. rewrite (normalized_get _ _ _ _ Hnd), Hc. simpl.
    rewrite cpt_of_unfold in Htop.
    assert (Hnone : dget c "cpt" = VNone)
      by (unfold dget, dict_get_default; now rewrite Hc).
    rewrite Hnone in Htop. cbn [py_truthy] in Htop.
    destruct (py_truthy (dget c "cpt_code")) eqn:Ty.
    + injection Htop as <-. right. unfold stringify_cpt.
      destruct (dget c "cpt_code") as [| | | |s| |];
        simpl in *; try discriminate; eauto.
      destruct s; [discriminate | simpl; eauto].
    + destruct (first_line_cpt_coerced (dget c "lines")) as [x [Hx Hshape]].
      cbn [bind] in Htop. unfold coerced in Htop. rewrite Hx in Htop.
      injection Htop as <-.
      destruct Hshape as [-> | [s ->]]; [now left | right].
      unfold stringify_cpt. simpl. destruct (str_is_empty s); simpl; eauto.
  - intros Hs. rewrite (normalized_get _ _ _ _ Hnd), Hs. simpl. eauto.
  - intros Hl. rewrite (normalized_get _ _ _ _ Hnd), Hl. simpl.
    unfold coerced, dget, dict_get_default. now rewrite Hl.
Qed.

Lemma normalize_fills_canonical_keys_witness :
  exists n,
    normalize_claim (VDict [("cpt_code", VInt 97112); ("dx", VStr "M17.11")]) = Ok n
    /\ field n "cpt" = Some (VStr "97112")
    /\ field n "service" = Some (VStr "physical therapy")
    /\ field n "diagnosis" = Some (VList [VStr "M17.11"])
    /\ ((forall k, In k CANONICAL_KEYS -> exists v, field n k = Some v)
        /\ (dict_get [("cpt_code", VInt 97112); ("dx", VStr "M17.11")] "cpt" = None ->
            field n "cpt" = Some VNone \/ exists s, field n "cpt" = Some (VStr s))
        /\ (dict_get [("cpt_code", VInt 97112); ("dx", VStr "M17.11")] "service" = None ->
            exists s, field n "service" = Some (VStr s))
        /\ (dict_get [("cpt_code", VInt 97112); ("dx", VStr "M17.11")] "lines" = None ->
            field n "lines" = Some (VList []))).
Proof.
  eexists. split; [reflexivity|]. split; [reflexivity|]. split; [reflexivity|].
  split; [reflexivity|].
  apply (normalize_fills_canonical_keys
           [("cpt_code", VInt 97112); ("dx", VStr "M17.11")]).
  - repeat constructor; simpl; intuition discriminate.
  - reflexivity.
Defined.

(** ** [_canon_service] *)

(** [_canon_service] reads six keys only. *)
Lemma canon_service_agree (d1 d2 : list (string * pyval)) :
  dget d1 "service" = dget d2 "service" ->
  dget d1 "description" = dget d2 "description" ->
  dget d1 "procedure" = dget d2 "procedure" ->
  dget d1 "cpt" = dget d2 "cpt" ->
  dget d1 "cpt_code" = dget d2 "cpt_code" ->
  py_or (dget d1 "lines") (VList []) = py_or (dget d2 "lines") (VList []) ->
  _canon_service (VDict d1) = _canon_service (VDict d2).
Proof.
  unfold dget. intros H1 H2 H3 H4 H5 H6.
  unfold _canon_service, first_of_three, cpt_of. cbn [py_get bind].
  now rewrite H1, H2, H3, H4, H5, H6.
Qed.

(** The coerced lines [normalize_claim] hands to [_canon_service] are
    never the ones it reads: it sees the claim's own [lines]. *)
Lemma canon_service_view (c : list (string * pyval)) :
  NoDup (map fst c) ->
  _canon_service (canon_view c) = _canon_service (VDict c).
Proof.
  intros Hnd. unfold canon_view.
  assert (Hget : forall k, k <> "lines" ->
                   dget (dict_update [("lines", VList (coerced c))] c) k = dget c k).
  { intros k Hk. unfold dget, dict_get_default.
    rewrite (dict_get_update _ _ _ Hnd). simpl.
    apply String.eqb_neq in Hk. rewrite Hk. now destruct (dict_get c k). }
  apply canon_service_agree; try (apply Hget; discriminate).
  unfold dget at 1, dict_get_default. rewrite (dict_get_update _ _ _ Hnd). simpl.
  unfold coerced, dget, dict_get_default.
  now destruct (dict_get c "lines").
Qed.

Lemma normalize_eq (c : list (string * pyval)) :
  normalize_claim (VDict c)
  = (top <- cpt_of (VDict c) (Ok (VList (coerced c))) ;;
     service <- _canon_service (canon_view c) ;;
     Ok (VDict (dict_update (canonical c top service) c))).
Proof.
  unfold normalize_claim, canon_view, canonical, diagnosis_of, coerced, dget.
  cbn [py_get bind py_entries].
  assert (Hd : (if py_truthy (dict_get_default c "diagnosis" VNone)
                then Ok (dict_get_default c "diagnosis" VNone)
                else Ok (py_or (dict_get_default c "dx" VNone) (VList [])))
               = Ok (py_or (dict_get_default c "diagnosis" VNone)
                       (py_or (dict_get_default c "dx" VNone) (VList [])))).
  { unfold py_or. now destruct (py_truthy (dict_get_default c "diagnosis" VNone)). }
  rewrite Hd. cbn [bind].
  destruct (cpt_of (VDict c) _) as [top|e]; cbn [bind]; [|reflexivity].
  destruct (_canon_service _) as [service|e]; cbn [bind]; reflexivity.
Qed.

Lemma service_of_cpt_known (code : string) :
  service_of_cpt code = "" \/ In (service_of_cpt code) (map snd CPT_TO_SERVICE).
Proof.
  unfold service_of_cpt. simpl.
  destruct (String.eqb code "97110"); [right; simpl; auto|].
  destruct (String.eqb code "97112"); [right; simpl; auto|].
  destruct (String.eqb code "90686"); [right; simpl; auto|].
  now left.
Qed.

(** The explicit label of a claim: the first truthy one of [service],
    [description] and [procedure]. *)
Definition explicit_label (c : list (string * pyval)) : pyval :=
  py_or (dget c "service")
    (py_or (dget c "description") (py_or (dget c "procedure") (VStr ""))).

Lemma canon_service_eq (c : list (string * pyval)) :
  _canon_service (VDict c)
  = (svc <- py_strip (explicit_label c) ;;
     if negb (str_is_empty svc) then Ok svc
     else
       cpt <- cpt_of (VDict c) (Ok (py_or (dget c "lines") (VList []))) ;;
       if negb (py_truthy cpt) then Ok "" else Ok (service_of_cpt (py_str cpt))).
Proof.
  unfold _canon_service, first_of_three, explicit_label, dget, py_or.
  cbn [py_get bind].
  destruct (py_truthy (dict_get_default c "service" VNone)); [reflexivity|].
  cbn [bind].
  destruct (py_truthy (dict_get_default c "description" VNone)); reflexivity.
Qed.

(** Whenever [_canon_service] returns, the claim's explicit label is
    text.  If that text is ASCII and not blank, the result is the text,
    trimmed, whatever CPT the claim carries; if it is all ASCII blanks,
    the result comes from the CPT table: one of its labels, or the empty
    string when the claim has no CPT or an unknown one.  Every label of
    the CPT table is a canonical name of the synonym table. *)
Theorem canon_service_label (c : list (string * pyval)) (s : string) :
  _canon_service (VDict c) = Ok s ->
  exists t,
    explicit_label c = VStr t
    /\ (is_ascii t = true -> strip t <> "" -> s = strip t)
    /\ (strip t = "" ->
        s = ""
        \/ (In s (map snd CPT_TO_SERVICE) /\ In s (map fst SERVICE_SYNONYMS))).
Proof.
  rewrite canon_service_eq.
  destruct (explicit_label c) as [| | | |t| |] eqn:E; simpl; try discriminate.
  intros H. exists t. split; [reflexivity|].
  destruct (str_is_empty (strip t)) eqn:Eb; simpl in H.
  - apply str_is_empty_true in Eb. split; [congruence|]. intros _.
    destruct (cpt_of _ _) as [cpt|e]; simpl in H; [|discriminate].
    destruct (py_truthy cpt); simpl in H; injection H as <-; [|now left].
    destruct (service_of_cpt_known (py_str cpt)) as [-> | Hin]; [now left|].
    right. split; [exact Hin|].
    simpl in Hin. destruct Hin as [<- | [<- | [<- | []]]]; simpl; auto.
  - injection H as <-. apply str_is_empty_false in Eb. split; [reflexivity|].
    congruence.
Qed.

Lemma canon_service_label_witness :
  exists t,
    explicit_label [("service", VStr "  "); ("procedure", VStr " "); ("cpt", VInt 90686)]
    = VStr t
    /\ (is_ascii t = true -> strip t <> "" -> "influenza vaccine" = strip t)
    /\ (strip t = "" ->
        "influenza vaccine" = ""
        \/ (In "influenza vaccine" (map snd CPT_TO_SERVICE)
            /\ In "influenza vaccine" (map fst SERVICE_SYNONYMS))).
Proof.
  apply (canon_service_label
           [("service", VStr "  "); ("procedure", VStr " "); ("cpt", VInt 90686)]).
  reflexivity.
Defined.

(** The service [normalize_claim] derives is [_canon_service] of the
    claim as given: for a claim that has no [service] key, the normalised
    [service] is what [_canon_service] returns on the raw claim. *)
Theorem normalize_service_from_raw_claim (c : list (string * pyval)) (n : pyval) :
  NoDup (map fst c) ->
  normalize_claim (VDict c) = Ok n ->
  dict_get c "service" = None ->
  exists s, _canon_service (VDict c) = Ok s /\ field n "service" = Some (VStr s).
Proof.
  intros Hnd Hn Hs. rewrite normalize_eq in Hn.
  destruct (cpt_of _ _) as [top|e]; cbn [bind] in Hn; [|discriminate].
  rewrite (canon_service_view c Hnd) in Hn.
  destruct (_canon_service (VDict c)) as [s|e]; cbn [bind] in Hn; [|discriminate].
  injection Hn as <-. exists s. split; [reflexivity|].
  simpl. now rewrite (normalized_get _ _ _ _ Hnd), Hs.
Qed.

Lemma normalize_service_from_raw_claim_witness :
  exists s,
    _canon_service (VDict [("lines", VList [VDict [("cpt", VInt 97112)]])]) = Ok s
    /\ field (EvaluatorClaims.result_or_none
                (normalize_claim (VDict [("lines", VList [VDict [("cpt", VInt 97112)]])])))
             "service" = Some (VStr s).
Proof.
  apply (normalize_service_from_raw_claim
           [("lines", VList [VDict [("cpt", VInt 97112)]])]).
  - repeat constructor; simpl; intuition discriminate.
  - reflexivity.
  - reflexivity.
Defined.

(** A claim that names no service and no CPT of its own, and whose first
    line is not a dict, cannot be normalised: [_coerce_lines] drops the
    line, but [_canon_service] reads the claim's own lines and raises. *)
Theorem normalize_raises_on_bad_first_line
    (c : list (string * pyval)) (first : pyval) (rest : list pyval) :
  NoDup (map fst c) ->
  Forall (fun k => py_truthy (dget c k) = false)
         ["service"; "description"; "procedure"; "cpt"; "cpt_code"] ->
  dict_get c "lines" = Some (VList (first :: rest)) ->
  is_dict first = false ->
  normalize_claim (VDict c) = Raise AttributeError.
Proof.
  intros Hnd Hf Hl Hfirst.
  repeat match goal with
         | H : Forall _ (_ :: _) |- _ =>
             let Hh := fresh "Hk" in
             pose proof (Forall_inv H) as Hh; apply Forall_inv_tail in H
         end.
  rewrite normalize_eq, cpt_of_unfold, Hk2, Hk3. cbn [bind].
  destruct (first_line_cpt_coerced (dget c "lines")) as [x [Hx _]].
  unfold coerced at 1. rewrite Hx. cbn [bind].
  rewrite (canon_service_view c Hnd), canon_service_eq.
  unfold explicit_label, py_or. rewrite Hk, Hk0, Hk1. simpl.
  rewrite cpt_of_unfold, Hk2, Hk3. cbn [bind].
  unfold dget, dict_get_default. rewrite Hl. simpl.
  destruct first; try reflexivity. discriminate Hfirst.
Qed.

Lemma normalize_raises_on_bad_first_line_witness :
  normalize_claim
    (VDict [("claim_id", VStr "C-9"); ("service", VStr "");
            ("lines", VList [VStr "97110"; VDict [("cpt", VStr "97110")]])])
  = Raise AttributeError.
Proof.
  apply (normalize_raises_on_bad_first_line
           [("claim_id", VStr "C-9"); ("service", VStr "");
            ("lines", VList [VStr "97110"; VDict [("cpt", VStr "97110")]])]
           (VStr "97110") [VDict [("cpt", VStr "97110")]]).
  - repeat constructor; simpl; intuition discriminate.
  - repeat constructor.
  - reflexivity.
  - reflexivity.
Defined.

(** ** Intake, then the Evaluator *)

Lemma canon_service_explicit_text (c : list (string * pyval)) (s : string) :
  _canon_service (VDict c) = Ok s -> exists t, explicit_label c = VStr t.
Proof.
  rewrite canon_service_eq.
  destruct (explicit_label c); simpl; try discriminate. eauto.
Qed.

Lemma normalized_is_readable (c : list (string * pyval)) (n : pyval) :
  NoDup (map fst c) ->
  normalize_claim (VDict c) = Ok n ->
  claim_ok n = true.
Proof.
  intros Hnd Hn. rewrite normalize_eq in Hn.
  destruct (cpt_of _ _) as [top|e]; cbn [bind] in Hn; [|discriminate].
  rewrite (canon_service_view c Hnd) in Hn.
  destruct (_canon_service (VDict c)) as [s|e] eqn:Es; cbn [bind] in Hn;
    [|discriminate].
  injection Hn as <-. simpl. unfold dict_get_default.
  rewrite (normalized_get _ _ _ _ Hnd).
  destruct (dict_get c "service") as [v|] eqn:Ev; [|now destruct s].
  unfold text_ok. destruct (py_truthy v) eqn:Tv; [|reflexivity].
  destruct (canon_service_explicit_text c s Es) as [t Ht].
  unfold explicit_label, py_or, dget, dict_get_default in Ht.
  rewrite Ev, Tv in Ht. now subst v.
Qed.

(** What [normalize_claim] returns is always a claim the Evaluator can
    read: however the claim was given, the Evaluator never raises on the
    claim's side after the intake. *)
Theorem intake_output_is_readable
    (c : list (string * pyval)) (n contract : pyval) :
  NoDup (map fst c) ->
  normalize_claim (VDict c) = Ok n ->
  contract_ok contract = true ->
  exists r, _evaluate_against_contract n contract = Ok r.
Proof.
  intros Hnd Hn Hk.
  destruct (evaluate_total n contract (normalized_is_readable c n Hnd Hn) Hk)
    as [f [b [m [_ [_ He]]]]].
  eauto.
Qed.

Lemma intake_output_is_readable_witness :
  exists r,
    _evaluate_against_contract
      (EvaluatorClaims.result_or_none
         (normalize_claim (VDict [("cpt", VInt 97110); ("service", VNone)])))
      EvaluatorClaims.contract_knee = Ok r.
Proof.
  apply (intake_output_is_readable [("cpt", VInt 97110); ("service", VNone)]).
  - repeat constructor; simpl; intuition discriminate.
  - reflexivity.
  - reflexivity.
Defined.

End IntakeExtras.

(* ================================================================== *)
(** * The pipeline *)

Module PipelineExtras.
Import Py ClaimIntake BundledMatch Recommendation ProviderResponse Pipeline.
Import EvaluatorFacts SelectorFacts SelectorClaims MapperClaims DrafterClaims.
Import IntakeExtras DictFacts MapperExtras.

Lemma normalize_dict (claim n : pyval) :
  normalize_claim claim = Ok n ->
  exists c ne, claim = VDict c /\ n = VDict ne.
Proof.
  destruct claim as [| | | | | |c]; try discriminate.
  intros H. apply normalize_unfold in H as [top [service [_ [_ ->]]]]. eauto.
Qed.

Lemma intake_returns (claim n : pyval) :
  normalize_claim claim = Ok n ->
  exists intake,
    claim_intake_agent claim = Ok intake
    /\ py_get intake "normalized_claim" claim = Ok n
    /\ field intake "status" = Some (VStr "ok").
Proof.
  intros H. destruct (normalize_dict _ _ H) as [c [ne [-> ->]]].
  unfold claim_intake_agent. rewrite H. cbn [bind py_get].
  eexists. repeat split.
Qed.

Lemma intake_inv (claim intake : pyval) :
  claim_intake_agent claim = Ok intake ->
  exists n, normalize_claim claim = Ok n.
Proof.
  unfold claim_intake_agent.
  destruct (normalize_claim claim) as [n|e]; cbn [bind]; [eauto | discriminate].
Qed.

Lemma mapM_evaluate_results (pt_claim : pyval) (cs rs : list pyval) :
  mapM (_evaluate_against_contract pt_claim) cs = Ok rs ->
  Forall evaluator_result rs.
Proof.
  revert rs. induction cs as [|c cs IH]; intros rs; simpl.
  - intros H. injection H as <-. constructor.
  - destruct (_evaluate_against_contract pt_claim c) as [r|e] eqn:E;
      cbn [bind]; [|discriminate].
    destruct (mapM _ cs) as [rs'|e]; cbn [bind]; [|discriminate].
    intros H. injection H as <-. constructor; [|now apply IH].
    apply evaluate_unfold in E as [f [b [m [_ [_ ->]]]]]. now exists f, b, m.
Qed.

(** What the Selector can return: the no-contracts result, or a result
    of the Evaluator. *)
Definition selector_result (pt_claim m : pyval) : Prop :=
  m = no_contracts_result pt_claim \/ evaluator_result m.

Lemma best_of_shape (pt_claim : pyval) (rs : list pyval) (m : pyval) :
  Forall evaluator_result rs ->
  best_of pt_claim rs = Ok m ->
  selector_result pt_claim m.
Proof.
  intros Hev Hb. destruct rs as [|r rs'].
  - left. simpl in Hb. now injection Hb.
  - right.
    destruct (best_of_spec pt_claim (r :: rs') ltac:(discriminate) Hev)
      as [best [pre [post [Hbest [Hsplit _]]]]].
    rewrite Hbest in Hb. injection Hb as <-.
    rewrite Forall_forall in Hev. apply Hev. rewrite Hsplit.
    apply in_or_app. right. now left.
Qed.

Lemma selector_result_shape (pt_claim contracts m : pyval) :
  bundled_match_agent pt_claim contracts = Ok m ->
  selector_result pt_claim m.
Proof.
  unfold bundled_match_agent.
  destruct (is_dict contracts && has_contract_id contracts).
  - intros H. right.
    apply evaluate_unfold in H as [f [b [ms [_ [_ ->]]]]]. now exists f, b, ms.
  - destruct contracts as [| | | | | |d].
    7: { destruct (mapM _ (dict_values d)) as [rs|e] eqn:E; cbn [bind];
         [|discriminate].
         apply best_of_shape. now apply mapM_evaluate_results in E. }
    all: destruct (py_iter _) as [xs|e]; cbn [bind]; [|discriminate];
      destruct (mapM _ xs) as [rs|e] eqn:E; cbn [bind]; [|discriminate];
      apply best_of_shape; now apply mapM_evaluate_results in E.
Qed.

Lemma iter_ok_list (l : list pyval) : iter_ok (VList l) = true.
Proof. unfold iter_ok. now destruct l. Qed.

(** The Mapper always returns a dict; whether the Drafter can read it
    depends on the evidence and the matched terms of the match result. *)
Lemma recommendation_agent_draftable (claim : pyval) (m : list (string * pyval)) :
  exists rd,
    recommendation_agent claim (VDict m) = Ok (VDict rd)
    /\ dict_get rd "decision" = Some (VStr (decision_of m))
    /\ draftable rd
       = text_ok (dict_get_default m "evidence" VNone) && iter_ok (terms_of m).
Proof.
  unfold recommendation_agent, decision_of, terms_of, skipped, flagged.
  cbn [py_get bind].
  destruct (py_eq_str (dict_get_default m "status" VNone) "skipped");
    [|destruct (py_truthy (dict_get_default m "is_in_bundle" VNone))];
    cbn [bind]; eexists; (split; [reflexivity|]); (split; [reflexivity|]);
    unfold draftable;
    match goal with
    | |- ?a && ?b && ?c = _ => change c with true; now rewrite andb_true_r
    end.
Qed.

(** The Mapper on what the Selector returns. *)
Lemma mapper_on_selector_result (claim pt_claim m : pyval) :
  selector_result pt_claim m ->
  exists rd d,
    recommendation_agent claim m = Ok (VDict rd)
    /\ dict_get rd "decision" = Some (VStr d)
    /\ ((d = "REJECT" /\ in_bundle m = true) \/ (d = "PAY" /\ in_bundle m = false))
    /\ draftable rd = true.
Proof.
  intros [-> | [f [b [ms ->]]]].
  - eexists. exists "PAY". repeat split. right. split; reflexivity.
  - unfold result_of.
    set (entries := dict_set (parsed_result f b ms) "trace" _).
    destruct (recommendation_agent_draftable claim entries) as [rd [Hr [Hd Hdr]]].
    exists rd, (decision_of entries). split; [exact Hr|]. split; [exact Hd|].
    split.
    + unfold decision_of.
      change (skipped entries) with false.
      change (flagged entries) with (cpt_match f || b).
      change (in_bundle (VDict entries)) with (cpt_match f || b).
      destruct (cpt_match f || b); [left | right]; split; reflexivity.
    + rewrite Hdr.
      change (terms_of entries)
        with (VList (map VStr (ms ++ (if cpt_match f then [cpt f] else []))%list)).
      rewrite iter_ok_list. reflexivity.
Qed.

Lemma selector_returns (pt_claim contracts : pyval) (cs : list pyval) :
  candidates contracts cs ->
  Forall (evaluates pt_claim) cs ->
  exists m, bundled_match_agent pt_claim contracts = Ok m.
Proof.
  intros Hcand Hall. rewrite (selector_on_candidates _ _ _ Hcand).
  destruct (evaluate_all pt_claim cs Hall) as [-> Hev]. cbn [bind].
  destruct cs as [|c cs'].
  - simpl. eauto.
  - assert (Hne : map (eval_or_none pt_claim) (c :: cs') <> []) by discriminate.
    destruct (best_of_spec pt_claim _ Hne Hev) as [best [_ [_ [Hb _]]]].
    eauto.
Qed.

(** One run of the pipeline, once the intake and the Selector have
    returned. *)
Lemma pipeline_run (CONTRACTS claim n m : pyval) :
  normalize_claim claim = Ok n ->
  bundled_match_agent n CONTRACTS = Ok m ->
  exists intake rd d resp,
    run_pipeline CONTRACTS claim
    = Ok (VDict [ ("intake", intake); ("match", m);
                  ("reco", VDict rd); ("response", resp) ])
    /\ field intake "status" = Some (VStr "ok")
    /\ recommendation_agent n m = Ok (VDict rd)
    /\ dict_get rd "decision" = Some (VStr d)
    /\ ((d = "REJECT" /\ in_bundle m = true) \/ (d = "PAY" /\ in_bundle m = false))
    /\ field resp "status" = Some (VStr "ok")
    /\ field resp "decision" = Some (VStr d).
Proof.
  intros Hn Hm.
  destruct (intake_returns claim n Hn) as [intake [Hi [Hget Hst]]].
  destruct (mapper_on_selector_result n n m (selector_result_shape _ _ _ Hm))
    as [rd [d [Hr [Hd [Hcases Hdraft]]]]].
  assert (Hdec : effective_decision (VDict rd) (VStr d) = Ok d /\ is_valid d = true
                 /\ py_truthy (VStr d) = true /\ upper d = d).
  { destruct Hcases as [[-> _] | [-> _]]; repeat split. }
  destruct Hdec as [Heff [Hvalid [Htruthy Hupper]]].
  destruct (drafter_valid rd (VStr d) d Heff Hvalid) as [Hshape Hret].
  destruct (Hret Hdraft) as [resp Hresp].
  destruct (Hshape resp Hresp) as [draft [na Hform]].
  exists intake, rd, d, resp.
  split.
  - unfold run_pipeline. rewrite Hi. cbn [bind]. rewrite Hget. cbn [bind].
    rewrite Hm. cbn [bind]. rewrite Hr. cbn [bind py_get py_entries].
    unfold dict_get_default. rewrite Hd, Htruthy. cbn [bind py_upper].
    rewrite Hupper, (dict_set_same rd "decision" (VStr d) Hd), Hresp.
    reflexivity.
  - repeat split; auto; rewrite Hform; reflexivity.
Qed.

Lemma pipeline_inv (CONTRACTS claim out : pyval) :
  run_pipeline CONTRACTS claim = Ok out ->
  exists n m, normalize_claim claim = Ok n /\ bundled_match_agent n CONTRACTS = Ok m.
Proof.
  unfold run_pipeline.
  destruct (claim_intake_agent claim) as [intake|e] eqn:Ei; cbn [bind];
    [|discriminate].
  destruct (intake_inv _ _ Ei) as [n Hn].
  destruct (intake_returns claim n Hn) as [intake' [Hi' [Hget _]]].
  rewrite Ei in Hi'. injection Hi' as <-. rewrite Hget. cbn [bind].
  destruct (bundled_match_agent n CONTRACTS) as [m|e] eqn:Em; cbn [bind];
    [|discriminate].
  intros _. now exists n, m.
Qed.

(** The pipeline returns exactly when the intake and the Selector do:
    after them the Mapper and the Drafter never raise. *)
Theorem pipeline_returns_iff (CONTRACTS claim : pyval) :
  (exists out, run_pipeline CONTRACTS claim = Ok out)
  <-> exists n m,
        normalize_claim claim = Ok n /\ bundled_match_agent n CONTRACTS = Ok m.
Proof.
  split.
  - intros [out H]. now apply pipeline_inv in H.
  - intros [n [m [Hn Hm]]].
    destruct (pipeline_run _ _ _ _ Hn Hm) as [i [rd [d [resp [H _]]]]]. eauto.
Qed.

(** In every run of the pipeline that returns, the recommendation is
    [REJECT] when the selected match is in-bundle and [PAY] when it is
    not, and the Drafter's response has status ["ok"] and the same
    decision: the Drafter's error result, and the decisions [DENY] and
    [ADJUST], never come out of the pipeline. *)
Theorem pipeline_decision (CONTRACTS claim out : pyval) :
  run_pipeline CONTRACTS claim = Ok out ->
  exists m reco resp d,
    field out "match" = Some m
    /\ field out "reco" = Some reco
    /\ field out "response" = Some resp
    /\ field reco "decision" = Some (VStr d)
    /\ ((d = "REJECT" /\ in_bundle m = true) \/ (d = "PAY" /\ in_bundle m = false))
    /\ field resp "status" = Some (VStr "ok")
    /\ field resp "decision" = Some (VStr d).
Proof.
  intros H. destruct (pipeline_inv _ _ _ H) as [n [m [Hn Hm]]].
  destruct (pipeline_run _ _ _ _ Hn Hm)
    as [i [rd [d [resp [Hrun [_ [_ [Hd [Hc [Hs Hrd]]]]]]]]]].
  rewrite Hrun in H. injection H as <-.
  exists m, (VDict rd), resp, d. repeat split; auto.
Qed.

Definition claim_line_only : pyval :=
  VDict [("claim_id", VStr "C-1"); ("lines", VList [VDict [("cpt", VInt 97112)]])].

Definition run_line_only : pyval :=
  Eval vm_compute in
    EvaluatorClaims.result_or_none
      (run_pipeline (VList [EvaluatorClaims.contract_knee]) claim_line_only).

Lemma pipeline_decision_witness :
  exists m reco resp d,
    field run_line_only "match" = Some m
    /\ field run_line_only "reco" = Some reco
    /\ field run_line_only "response" = Some resp
    /\ field reco "decision" = Some (VStr d)
    /\ ((d = "REJECT" /\ in_bundle m = true) \/ (d = "PAY" /\ in_bundle m = false))
    /\ field resp "status" = Some (VStr "ok")
    /\ field resp "decision" = Some (VStr d).
Proof.
  apply (pipeline_decision (VList [EvaluatorClaims.contract_knee]) claim_line_only).
  reflexivity.
Defined.

(** With an empty or absent catalogue the pipeline pays: for every
    claim the intake accepts, the match is the no-contracts error, the
    recommendation is [PAY] and the response is a drafted approval. *)
Theorem pipeline_pays_without_contracts (CONTRACTS claim n : pyval) :
  py_truthy CONTRACTS = false ->
  normalize_claim claim = Ok n ->
  exists out m reco resp,
    run_pipeline CONTRACTS claim = Ok out
    /\ field out "match" = Some m
    /\ field m "status" = Some (VStr "error")
    /\ field m "reason" = Some (VStr "no_contracts")
    /\ field out "reco" = Some reco
    /\ field reco "decision" = Some (VStr "PAY")
    /\ field out "response" = Some resp
    /\ field resp "status" = Some (VStr "ok")
    /\ field resp "decision" = Some (VStr "PAY").
Proof.
  intros Hk Hn.
  pose proof (selector_on_falsy n CONTRACTS Hk) as Hm.
  destruct (pipeline_run _ _ _ _ Hn Hm)
    as [i [rd [d [resp [Hrun [_ [_ [Hd [Hc [Hs Hrd]]]]]]]]]].
  assert (d = "PAY") as -> by (destruct Hc as [[_ Hb] | [-> _]]; [discriminate | reflexivity]).
  eexists. exists (no_contracts_result n), (VDict rd), resp.
  split; [exact Hrun|]. repeat split; auto.
Qed.

Lemma pipeline_pays_without_contracts_witness :
  exists out m reco resp,
    run_pipeline (VDict []) claim_line_only = Ok out
    /\ field out "match" = Some m
    /\ field m "status" = Some (VStr "error")
    /\ field m "reason" = Some (VStr "no_contracts")
    /\ field out "reco" = Some reco
    /\ field reco "decision" = Some (VStr "PAY")
    /\ field out "response" = Some resp
    /\ field resp "status" = Some (VStr "ok")
    /\ field resp "decision" = Some (VStr "PAY").
Proof.
  apply (pipeline_pays_without_contracts (VDict []) claim_line_only
           (EvaluatorClaims.result_or_none (normalize_claim claim_line_only)));
    reflexivity.
Defined.

(** The pipeline returns on every claim the intake accepts when each
    contract of the catalogue (a sequence, or a mapping with no entry
    named ["contract_id"]) is one the Evaluator can read. *)
Theorem pipeline_returns_on_readable_catalogue
    (CONTRACTS : pyval) (cs : list pyval) (c : list (string * pyval)) (n : pyval) :
  NoDup (map fst c) ->
  normalize_claim (VDict c) = Ok n ->
  candidates CONTRACTS cs ->
  Forall (fun k => contract_ok k = true) cs ->
  exists out, run_pipeline CONTRACTS (VDict c) = Ok out.
Proof.
  intros Hnd Hn Hcand Hks.
  assert (Hall : Forall (evaluates n) cs).
  { eapply Forall_impl; [|exact Hks]. intros k Hk.
    apply evaluates_readable; [|exact Hk].
    exact (normalized_is_readable c n Hnd Hn). }
  destruct (selector_returns n CONTRACTS cs Hcand Hall) as [m Hm].
  destruct (pipeline_run _ _ _ _ Hn Hm) as [i [rd [d [resp [H _]]]]]. eauto.
Qed.

Lemma pipeline_returns_on_readable_catalogue_witness :
  exists out,
    run_pipeline
      (VDict [("flu", EvaluatorClaims.contract_flu);
              ("knee", EvaluatorClaims.contract_knee)])
      (VDict [("claim_id", VStr "C-1"); ("lines", VList [VDict [("cpt", VInt 97112)]])])
    = Ok out.
Proof.
  apply (pipeline_returns_on_readable_catalogue
           (VDict [("flu", EvaluatorClaims.contract_flu);
                   ("knee", EvaluatorClaims.contract_knee)])
           [EvaluatorClaims.contract_flu; EvaluatorClaims.contract_knee]
           [("claim_id", VStr "C-1"); ("lines", VList [VDict [("cpt", VInt 97112)]])]
           (EvaluatorClaims.result_or_none (normalize_claim claim_line_only))).
  - repeat constructor; simpl; intuition discriminate.
  - reflexivity.
  - right. eexists. repeat split.
  - repeat constructor.
Defined.

(** For a claim that carries its own [service] and [cpt] keys, even
    empty ones, the intake changes nothing for the Evaluator: it answers
    on the normalised claim as on the claim as given, so a label the
    intake derives from the CPT is not used. *)
Theorem intake_is_invisible_with_own_keys
    (c : list (string * pyval)) (n contract v1 v2 : pyval) :
  NoDup (map fst c) ->
  normalize_claim (VDict c) = Ok n ->
  dict_get c "service" = Some v1 ->
  dict_get c "cpt" = Some v2 ->
  _evaluate_against_contract n contract
  = _evaluate_against_contract (VDict c) contract.
Proof.
  intros Hnd Hn H1 H2.
  pose proof (normalized_is_readable c n Hnd Hn) as Hok.
  apply normalize_unfold in Hn as [top [service [_ [_ ->]]]].
  assert (Hs : dict_get_default (dict_update (canonical c top service) c) "service" VNone
               = dict_get_default c "service" VNone).
  { unfold dict_get_default. now rewrite (normalized_get _ _ _ _ Hnd), H1. }
  assert (Hc : dict_get_default (dict_update (canonical c top service) c) "cpt" VNone
               = dict_get_default c "cpt" VNone).
  { unfold dict_get_default. now rewrite (normalized_get _ _ _ _ Hnd), H2. }
  apply EvaluatorExtras.evaluate_agree.
  - exact Hok.
  - simpl in Hok |- *. now rewrite <- Hs.
  - unfold claim_service. now rewrite Hs.
  - unfold claim_cpt. now rewrite Hc.
Qed.

Lemma intake_is_invisible_with_own_keys_witness :
  _evaluate_against_contract
    (EvaluatorClaims.result_or_none
       (normalize_claim (VDict [("service", VStr ""); ("cpt", VInt 97112)])))
    (VDict [("episode", VDict [("covered_services", VList [VStr "physical therapy"])])])
  = _evaluate_against_contract
      (VDict [("service", VStr ""); ("cpt", VInt 97112)])
      (VDict [("episode", VDict [("covered_services", VList [VStr "physical therapy"])])]).
Proof.
  apply (intake_is_invisible_with_own_keys
           [("service", VStr ""); ("cpt", VInt 97112)] _ _ (VStr "") (VInt 97112)).
  - repeat constructor; simpl; intuition discriminate.
  - reflexivity.
  - reflexivity.
  - reflexivity.
Defined.

End PipelineExtras.

(* ================================================================== *)
(** * The tokenizer *)

Module TokenExtras.
Import Py BundledMatch StringFacts.

(** Every character of [s] satisfies [P]. *)
Fixpoint all_chars (P : ascii -> bool) (s : string) : bool :=
  match s with
  | EmptyString => true
  | String c s' => P c && all_chars P s'
  end.

Lemma all_chars_of_list (P : ascii -> bool) (l : list ascii) :
  all_chars P (string_of_list_ascii l) = forallb P l.
Proof. induction l as [|c l IH]; simpl; [reflexivity | now rewrite IH]. Qed.

Lemma forallb_rev {A : Type} (P : A -> bool) (l : list A) :
  forallb P (rev l) = forallb P l.
Proof.
  induction l as [|x l IH]; simpl; [reflexivity|].
  rewrite forallb_app, IH. simpl. rewrite andb_true_r. apply andb_comm.
Qed.

(** The runs [split] cuts out are not empty, and are made of the
    non-blank characters of the text. *)
Lemma split_from_runs (P : ascii -> bool) (cur : list ascii) (s : string) :
  forallb (fun c => P c && negb (is_space c)) cur = true ->
  all_chars P s = true ->
  Forall (fun t => t <> "" /\ all_chars (fun c => P c && negb (is_space c)) t = true)
         (split_from cur s).
Proof.
  revert cur. induction s as [|c s IH]; intros cur Hcur Hs; simpl.
  - destruct cur as [|a cur']; [constructor|].
    constructor; [|constructor]. split.
    + simpl. destruct (rev cur'); discriminate.
    + now rewrite all_chars_of_list, forallb_rev.
  - simpl in Hs. apply andb_true_iff in Hs as [Hc Hs].
    destruct (is_space c) eqn:Esp.
    + destruct cur as [|a cur'].
      * apply IH; [reflexivity | exact Hs].
      * constructor; [|apply IH; [reflexivity | exact Hs]]. split.
        -- simpl. destruct (rev cur'); discriminate.
        -- now rewrite all_chars_of_list, forallb_rev.
    + apply IH; [|exact Hs]. simpl. now rewrite Hc, Esp, Hcur.
Qed.

(** A character a token can hold: not blank, not an underscore, and not
    an upper-case letter. *)
Definition token_char (c : ascii) : bool :=
  negb (Ascii.eqb c "_") && Ascii.eqb (lower_char c) c && negb (is_space c).

(** Every token [_tokens] returns is non-empty and holds no blank, no
    underscore and no upper-case letter: underscores separate words like
    blanks do, and letter case is gone. *)
Theorem tokens_are_clean (s : string) :
  Forall (fun t => t <> "" /\ all_chars token_char t = true) (_tokens s).
Proof.
  unfold _tokens, split.
  assert (H : Forall (fun t => t <> ""
                               /\ all_chars token_char t = true)
                     (split_from [] (underscores_to_spaces (lower s)))).
  { apply (split_from_runs
             (fun c => negb (Ascii.eqb c "_") && Ascii.eqb (lower_char c) c));
      [reflexivity|].
    unfold underscores_to_spaces, lower.
    induction s as [|c s IH]; simpl; [reflexivity|].
    rewrite IH, andb_true_r. clear. each_char c; reflexivity. }
  induction H as [|t ts Ht _ IH]; simpl; [constructor|].
  destruct (str_is_empty t); simpl; [exact IH | now constructor].
Qed.

End TokenExtras.
